(** * Space Invaders display core: a shallow embedding of [main.cpp]

    The file follows the source top to bottom: the fixed-width integers the
    code computes with, the [Buffer] class, the colour packing function
    [RGBToUint32], the diagnostic helpers [GLDebug], [ValidateShader] and
    [ValidateProgram], and [main] as a function from the answers of the
    windowing and graphics libraries to the sequence of calls it makes and
    the value it returns. *)

From Stdlib Require Import ZArith String Ascii List Bool Lia.
From Stdlib Require Import DecimalString DecimalZ DecimalPos.
Import ListNotations.
Local Open Scope Z_scope.

(** ** Fixed-width integers *)

Module Int.

(** [size_t] on the 64-bit targets the project builds for. *)
Definition size_bits : Z := 64.
Definition size_max : Z := 2 ^ size_bits.

(** Unsigned arithmetic wraps modulo the width. *)
Definition to_size_t (z : Z) : Z := z mod size_max.
Definition to_uint32 (z : Z) : Z := z mod 2 ^ 32.

(** Conversion to [int] (and [GLsizei], [GLint]): 32 bits, two's complement. *)
Definition to_int32 (z : Z) : Z := (z + 2 ^ 31) mod 2 ^ 32 - 2 ^ 31.

(** [a * b] on [size_t] operands. *)
Definition size_mul (a b : Z) : Z := to_size_t (a * b).

(** [x << n] on an [int] operand: the product by [2 ^ n], brought back to
    [int] (the result every two's-complement target gives, and the one the
    language defines since C++20). *)
Definition int_shl (x n : Z) : Z := to_int32 (Z.shiftl x n).

Definition is_size_t (z : Z) : Prop := 0 <= z < size_max.
Definition is_uint32 (z : Z) : Prop := 0 <= z < 2 ^ 32.
Definition is_uint8 (z : Z) : Prop := 0 <= z < 2 ^ 8.

End Int.

(** ** The pixel buffer (class [Buffer]) *)

(** [std::vector<uint32_t>::resize(n)]: keeps the first [n] cells and
    value-initialises (to zero) the cells it adds. *)
Definition vector_resize (v : list Z) (n : Z) : list Z :=
  firstn (Z.to_nat n) v ++ repeat 0 (Z.to_nat n - length v)%nat.

Record Buffer : Type := mkBuffer {
  width_ : Z;
  height_ : Z;
  image_ : list Z
}.

(** The range-for of [ClearImage]: every cell, front to back, is assigned
    [color]. *)
Fixpoint assign_each (color : Z) (image : list Z) : list Z :=
  match image with
  | [] => []
  | _ :: rest => color :: assign_each color rest
  end.

Definition ClearImage (color : Z) (b : Buffer) : Buffer :=
  {| width_ := width_ b;
     height_ := height_ b;
     image_ := assign_each color (image_ b) |}.

(** The constructor: the member initialisers, then [resize] of the empty
    vector to [width * height] (a [size_t] product), then [ClearImage(0)].
    It describes the constructions that complete; an allocation that fails
    inside [std::vector] throws out of the constructor and leaves no
    buffer. *)
Definition Buffer_new (width height : Z) : Buffer :=
  ClearImage 0
    {| width_ := width;
       height_ := height;
       image_ := vector_resize [] (Int.size_mul width height) |}.

Definition GetWidth (b : Buffer) : Z := width_ b.
Definition GetHeight (b : Buffer) : Z := height_ b.
Definition GetImage (b : Buffer) : list Z := image_ b.

(** Operations a client can apply to a constructed buffer, and what each
    one hands back. *)
Inductive BufferOp : Type :=
| OpClearImage (color : Z)
| OpGetWidth
| OpGetHeight
| OpGetImage.

Inductive BufferObs : Type :=
| ObsNone
| ObsWidth (n : Z)
| ObsHeight (n : Z)
| ObsImage (cells : list Z).

Definition apply_op (b : Buffer) (op : BufferOp) : Buffer * BufferObs :=
  match op with
  | OpClearImage color => (ClearImage color b, ObsNone)
  | OpGetWidth => (b, ObsWidth (GetWidth b))
  | OpGetHeight => (b, ObsHeight (GetHeight b))
  | OpGetImage => (b, ObsImage (GetImage b))
  end.

Fixpoint apply_ops (b : Buffer) (ops : list BufferOp) : Buffer * list BufferObs :=
  match ops with
  | [] => (b, [])
  | op :: rest =>
      let (b1, o) := apply_op b op in
      let (b2, os) := apply_ops b1 rest in
      (b2, o :: os)
  end.

(** An observation agrees with a buffer of dimensions [w], [h] and [n]
    cells. *)
Definition obs_agrees (w h : Z) (n : nat) (o : BufferObs) : Prop :=
  match o with
  | ObsNone => True
  | ObsWidth x => x = w
  | ObsHeight x => x = h
  | ObsImage cells => length cells = n
  end.

(** ** Colour packing *)

(** [(r << 24) | (g << 16) | (b << 8) | 255]: the [uint8_t] operands are
    promoted to [int], the expression is computed on [int], and the result
    is converted to [uint32_t] on return. *)
Definition RGBToUint32 (r g b : Z) : Z :=
  Int.to_uint32
    (Z.lor (Z.lor (Z.lor (Int.int_shl r 24) (Int.int_shl g 16)) (Int.int_shl b 8)) 255).

(** The channels of a packed colour, most significant byte first.  The
    source has no unpacking function; these are the byte projections that
    undo [RGBToUint32]. *)
Definition red_of (c : Z) : Z := Z.land (Z.shiftr c 24) 255.
Definition green_of (c : Z) : Z := Z.land (Z.shiftr c 16) 255.
Definition blue_of (c : Z) : Z := Z.land (Z.shiftr c 8) 255.
Definition alpha_of (c : Z) : Z := Z.land c 255.
Definition Uint32ToRGB (c : Z) : Z * Z * Z := (red_of c, green_of c, blue_of c).

(** ** Calls to the windowing and graphics libraries *)

(** The error codes [GLDebug] tells apart; any other code falls to the
    [default] label of its [switch].  [GL_OTHER_ERROR] stands for every
    such code: [GLDebug] treats them all alike, and so they are not told
    apart here either. *)
Inductive GLerror : Type :=
| GL_INVALID_ENUM
| GL_INVALID_VALUE
| GL_INVALID_OPERATION
| GL_INVALID_FRAMEBUFFER_OPERATION
| GL_OUT_OF_MEMORY
| GL_OTHER_ERROR.

(** The symbolic constants [main] passes to the libraries. *)
Inductive GLconst : Type :=
| GLFW_OPENGL_PROFILE | GLFW_OPENGL_CORE_PROFILE
| GLFW_CONTEXT_VERSION_MAJOR | GLFW_CONTEXT_VERSION_MINOR
| GLFW_OPENGL_FORWARD_COMPAT | GL_TRUE
| GL_MAJOR_VERSION | GL_MINOR_VERSION
| GL_RENDERER | GL_SHADING_LANGUAGE_VERSION
| GL_VERTEX_SHADER | GL_FRAGMENT_SHADER
| GL_TEXTURE_2D | GL_RGB8 | GL_RGBA | GL_UNSIGNED_INT_8_8_8_8
| GL_TEXTURE_MIN_FILTER | GL_TEXTURE_MAG_FILTER
| GL_TEXTURE_WRAP_S | GL_TEXTURE_WRAP_T
| GL_NEAREST | GL_CLAMP_TO_EDGE
| GL_DEPTH_TEST | GL_TEXTURE0 | GL_TRIANGLES.

Inductive HintValue : Type :=
| Sym (c : GLconst)
| Num (n : Z).

(** One constructor per library function [main] calls, with the arguments
    passed and, where the call hands something back, the value received.
    [cout] and [cerr] are one statement writing to a stream;
    [Buffer_ClearImage] is the call of the buffer's method.  A window is
    known by a number, a null window pointer is [None]. *)
Inductive Event : Type :=
| glfwSetErrorCallback
| glfwInit (result : bool)
| glfwWindowHint (hint : GLconst) (value : HintValue)
| glfwCreateWindow (width height : Z) (title : string) (result : option Z)
| glfwMakeContextCurrent (window : Z)
| glfwTerminate
| glfwWindowShouldClose (window : Z) (result : bool)
| glfwSwapBuffers (window : Z)
| glfwPollEvents
| glfwDestroyWindow (window : Z)
| glewInit (ok : bool)
| glGetIntegerv (pname : GLconst) (value : Z)
| glGetError (result : option GLerror)
| glGetString (name : GLconst) (result : string)
| glGenVertexArrays (n array : Z)
| glDeleteVertexArrays (n array : Z)
| glBindVertexArray (array : Z)
| glCreateProgram (result : Z)
| glCreateShader (type : GLconst) (result : Z)
| glShaderSource (shader count : Z) (source : string)
| glCompileShader (shader : Z)
| glGetShaderInfoLog (shader bufSize length : Z) (infoLog : string)
| glAttachShader (program shader : Z)
| glDeleteShader (shader : Z)
| glLinkProgram (program : Z)
| glGetProgramInfoLog (program bufSize length : Z) (infoLog : string)
| glUseProgram (program : Z)
| glGenTextures (n texture : Z)
| glBindTexture (target : GLconst) (texture : Z)
| glTexImage2D (target : GLconst) (level : Z) (internalformat : GLconst)
               (width height border : Z) (format type : GLconst) (pixels : list Z)
| glTexSubImage2D (target : GLconst) (level xoffset yoffset width height : Z)
                  (format type : GLconst) (pixels : list Z)
| glTexParameteri (target pname param : GLconst)
| glGetUniformLocation (program : Z) (name : string) (result : Z)
| glUniform1i (location v0 : Z)
| glDisable (cap : GLconst)
| glActiveTexture (texture : GLconst)
| glDrawArrays (mode : GLconst) (first count : Z)
| Buffer_ClearImage (color : Z)
| cout (text : string)
| cerr (text : string).

(** What the libraries answer during one run of the program. *)
Record Env : Type := mkEnv {
  env_glfwInit : bool;
  env_window : option Z;
  env_glewInit : bool;
  env_major : Z;
  env_minor : Z;
  env_errors : list GLerror;        (* error flags pending when [GLDebug] runs *)
  env_renderer : string;
  env_shading : string;
  env_vao : Z;
  env_program : Z;
  env_vertex : Z;
  env_fragment : Z;
  env_vertexLog : string;           (* info log of the vertex stage *)
  env_fragmentLog : string;         (* info log of the fragment stage *)
  env_programLog : string;          (* info log of the program after linking *)
  env_texture : Z;
  env_location : Z;
  env_shouldClose : nat -> bool     (* answer to the n-th loop test *)
}.

(** ** Sequencing: calls made so far, and how the computation stands *)

Inductive Step (A : Type) : Type :=
| Next (a : A)          (* control goes on with [a] *)
| Return (code : Z)     (* [main] has returned [code] *)
| Pending.              (* the loop has not been left within the fuel given *)
Arguments Next {A} a.
Arguments Return {A} code.
Arguments Pending {A}.

Definition M (A : Type) : Type := (list Event * Step A)%type.

Definition ret {A : Type} (a : A) : M A := ([], Next a).
Definition call (e : Event) : M unit := ([e], Next tt).
Definition exit {A : Type} (code : Z) : M A := ([], Return code).
Definition pending {A : Type} : M A := ([], Pending).

Definition bind {A B : Type} (m : M A) (f : A -> M B) : M B :=
  match m with
  | (t, Next a) => let (t', s) := f a in (t ++ t', s)
  | (t, Return code) => (t, Return code)
  | (t, Pending) => (t, Pending)
  end.

Notation "x <- m ;; k" := (bind m (fun x => k))
  (at level 61, m at next level, right associativity).
Notation "m ;; k" := (bind m (fun _ => k))
  (at level 61, right associativity).

Definition trace {A : Type} (m : M A) : list Event := fst m.
Definition exit_code {A : Type} (m : M A) : option Z :=
  match snd m with
  | Return code => Some code
  | _ => None
  end.

(** ** Text written to the streams *)

Local Open Scope string_scope.

Definition endl : string := String "010"%char EmptyString.
Definition dec (z : Z) : string := NilZero.string_of_int (Z.to_int z).

(** [__FILE__] at the one place [GLDebug] is called from: the path the
    compiler was given, here the name of the file. *)
Definition FILE_ : string := "main.cpp".

(** ** The diagnostic helpers *)

(** [ErrorCallback]: the line written when the windowing library reports
    an error through the callback [main] registers first.  When it is
    called is up to the library; the calls listed for [main] are the ones
    [main] makes itself. *)
Definition ErrorCallback (error : Z) (description : string) : Event :=
  cerr ("Error (" ++ dec error ++ "): " ++ description ++ endl).

Definition errorString (errorNo : GLerror) : string :=
  match errorNo with
  | GL_INVALID_ENUM => "GL_INVALID_ENUM"
  | GL_INVALID_VALUE => "GL_INVALID_VALUE"
  | GL_INVALID_OPERATION => "GL_INVALID_OPERATION"
  | GL_INVALID_FRAMEBUFFER_OPERATION => "GL_INVALID_FRAMEBUFFER_OPERATION"
  | GL_OUT_OF_MEMORY => "GL_OUT_OF_MEMORY"
  | GL_OTHER_ERROR => "UNKNOWN_ERROR"
  end.

(** [GLDebug]: [glGetError] hands back one pending flag per call and
    [GL_NO_ERROR] ([None]) once none is left; the loop writes a line per
    flag and stops at [GL_NO_ERROR]. *)
Fixpoint GLDebug (file : string) (line : Z) (errors : list GLerror) : M unit :=
  match errors with
  | [] => call (glGetError None)
  | errorNo :: rest =>
      call (glGetError (Some errorNo)) ;;
      call (cerr (errorString errorNo ++ " - " ++ file ++ " : " ++ dec line ++ endl)) ;;
      GLDebug file line rest
  end.

Definition BUFFER_SIZE : Z := 512.

(** [glGetShaderInfoLog] and [glGetProgramInfoLog] with a buffer of
    [bufSize] characters: the log is cut to [bufSize - 1] characters, and
    the length of what was written is handed back. *)
Definition read_info_log (bufSize : Z) (infoLog : string) : Z * string :=
  let buffer := substring 0 (Z.to_nat (bufSize - 1)) infoLog in
  (Z.of_nat (String.length buffer), buffer).

(** [infoLog] is the log the driver holds for [shader]; [file] is the
    text passed as second argument, as both calls in [main] pass one.  The
    declaration's default, a null pointer, is used by no call of the
    program and has no counterpart here. *)
Definition ValidateShader (shader : Z) (file : string) (infoLog : string) : M unit :=
  let (length, buffer) := read_info_log BUFFER_SIZE infoLog in
  call (glGetShaderInfoLog shader BUFFER_SIZE length buffer) ;;
  if (0 <? length)%Z
  then call (cerr ("Shader " ++ dec shader ++ "(" ++ file ++ ") compile error: "
                     ++ buffer ++ endl))
  else ret tt.

Definition ValidateProgram (program : Z) (infoLog : string) : M bool :=
  let (length, buffer) := read_info_log BUFFER_SIZE infoLog in
  call (glGetProgramInfoLog program BUFFER_SIZE length buffer) ;;
  if (0 <? length)%Z
  then call (cerr ("Program " ++ dec program ++ " link error: " ++ buffer ++ endl)) ;;
       ret false
  else ret true.

(** ** [main] *)

Definition bufferWidth : Z := 224.
Definition bufferHeight : Z := 256.

Definition vertexShader : string :=
"
#version 330

noperspective out vec2 TexCoord;

void main(void) {
    TexCoord.x = (2 == gl_VertexID) ? 2.0 : 0.0;
    TexCoord.y = (1 == gl_VertexID) ? 2.0 : 0.0;

    gl_Position = vec4(2.0 * TexCoord - 1.0, 0.0, 1.0);
}
".

Definition fragmentShader : string :=
"
#version 330

uniform sampler2D buffer;
noperspective in vec2 TexCoord;

out vec3 outColor;

void main(void) {
    outColor = texture(buffer, TexCoord).rgb;
}
".

(** Lines 81 to 108: the windowing library, the window and its context,
    the loader.  Hands on the window. *)
Definition acquire_context (env : Env) : M Z :=
  call glfwSetErrorCallback ;;
  call (glfwInit (env_glfwInit env)) ;;
  if negb (env_glfwInit env) then exit (-1) else
  call (glfwWindowHint GLFW_OPENGL_PROFILE (Sym GLFW_OPENGL_CORE_PROFILE)) ;;
  call (glfwWindowHint GLFW_CONTEXT_VERSION_MAJOR (Num 3)) ;;
  call (glfwWindowHint GLFW_CONTEXT_VERSION_MINOR (Num 3)) ;;
  call (glfwWindowHint GLFW_OPENGL_FORWARD_COMPAT (Sym GL_TRUE)) ;;
  call (glfwCreateWindow (Int.to_int32 bufferWidth) (Int.to_int32 bufferHeight)
                         "Space Invaders" (env_window env)) ;;
  match env_window env with
  | None => call glfwTerminate ;; exit (-1)
  | Some window =>
      call (glfwMakeContextCurrent window) ;;
      call (glewInit (env_glewInit env)) ;;
      if negb (env_glewInit env)
      then call (cerr ("Error initializing GLEW" ++ endl)) ;;
           call glfwTerminate ;;
           exit (-1)
      else ret window
  end.

(** Lines 110 to 118: the version numbers, the error check, three lines on
    the standard output. *)
Definition report_version (env : Env) : M unit :=
  call (glGetIntegerv GL_MAJOR_VERSION (env_major env)) ;;
  call (glGetIntegerv GL_MINOR_VERSION (env_minor env)) ;;
  GLDebug FILE_ 114 (env_errors env) ;;
  call (cout ("Using OpenGL: " ++ dec (env_major env) ++ "." ++ dec (env_minor env) ++ endl)) ;;
  call (glGetString GL_RENDERER (env_renderer env)) ;;
  call (cout ("Renderer used: " ++ env_renderer env ++ endl)) ;;
  call (glGetString GL_SHADING_LANGUAGE_VERSION (env_shading env)) ;;
  call (cout ("Shading Language: " ++ env_shading env ++ endl)).

(** Lines 155 to 164 and 167 to 176: one shader stage. *)
Definition build_stage (type : GLconst) (shader : Z) (source infoLog : string)
    (shaderId : Z) : M unit :=
  call (glCreateShader type shader) ;;
  call (glShaderSource shader 1 source) ;;
  call (glCompileShader shader) ;;
  ValidateShader shader source infoLog ;;
  call (glAttachShader shaderId shader) ;;
  call (glDeleteShader shader).

(** Lines 149 to 186: the vertex array, the program, its two stages, the
    link and its check.  Hands on the vertex array and the program. *)
Definition build_program (env : Env) : M (Z * Z) :=
  let fullscreenTriangleVAO := env_vao env in
  call (glGenVertexArrays 1 fullscreenTriangleVAO) ;;
  let shaderId := env_program env in
  call (glCreateProgram shaderId) ;;
  build_stage GL_VERTEX_SHADER (env_vertex env) vertexShader (env_vertexLog env) shaderId ;;
  build_stage GL_FRAGMENT_SHADER (env_fragment env) fragmentShader (env_fragmentLog env)
              shaderId ;;
  call (glLinkProgram shaderId) ;;
  valid <- ValidateProgram shaderId (env_programLog env) ;;
  if negb valid
  then call (cerr ("Error while validating program" ++ endl)) ;;
       call glfwTerminate ;;
       call (glDeleteVertexArrays 1 fullscreenTriangleVAO) ;;
       exit (-1)
  else ret (fullscreenTriangleVAO, shaderId).

(** Lines 188 to 210: the program in use, the texture, the sampler, the
    vertex array bound. *)
Definition setup_texture (env : Env) (buffer : Buffer)
    (fullscreenTriangleVAO shaderId : Z) : M unit :=
  call (glUseProgram shaderId) ;;
  let bufferTexture := env_texture env in
  call (glGenTextures 1 bufferTexture) ;;
  call (glBindTexture GL_TEXTURE_2D bufferTexture) ;;
  call (glTexImage2D GL_TEXTURE_2D 0 GL_RGB8
          (Int.to_int32 (GetWidth buffer)) (Int.to_int32 (GetHeight buffer)) 0
          GL_RGBA GL_UNSIGNED_INT_8_8_8_8 (GetImage buffer)) ;;
  call (glTexParameteri GL_TEXTURE_2D GL_TEXTURE_MIN_FILTER GL_NEAREST) ;;
  call (glTexParameteri GL_TEXTURE_2D GL_TEXTURE_MAG_FILTER GL_NEAREST) ;;
  call (glTexParameteri GL_TEXTURE_2D GL_TEXTURE_WRAP_S GL_CLAMP_TO_EDGE) ;;
  call (glTexParameteri GL_TEXTURE_2D GL_TEXTURE_WRAP_T GL_CLAMP_TO_EDGE) ;;
  let location := env_location env in
  call (glGetUniformLocation shaderId "buffer" location) ;;
  call (glUniform1i location 0) ;;
  call (glDisable GL_DEPTH_TEST) ;;
  call (glActiveTexture GL_TEXTURE0) ;;
  call (glBindVertexArray fullscreenTriangleVAO).

(** Lines 214 to 226: the body of the loop. *)
Definition frame (window clearColor : Z) (buffer : Buffer) : M Buffer :=
  call (Buffer_ClearImage clearColor) ;;
  let buffer := ClearImage clearColor buffer in
  call (glTexSubImage2D GL_TEXTURE_2D 0 0 0
          (Int.to_int32 (GetWidth buffer)) (Int.to_int32 (GetHeight buffer))
          GL_RGBA GL_UNSIGNED_INT_8_8_8_8 (GetImage buffer)) ;;
  call (glDrawArrays GL_TRIANGLES 0 3) ;;
  call (glfwSwapBuffers window) ;;
  call glfwPollEvents ;;
  ret buffer.

(** Line 213: the loop, [k] tests of its condition having been made.  The
    fuel bounds the number of tests; a window that is never closed keeps the
    loop going for ever. *)
Fixpoint frame_loop (fuel : nat) (env : Env) (window clearColor : Z) (k : nat)
    (buffer : Buffer) : M Buffer :=
  match fuel with
  | O => pending
  | S fuel' =>
      let closed := env_shouldClose env k in
      call (glfwWindowShouldClose window closed) ;;
      if closed then ret buffer
      else
        buffer' <- frame window clearColor buffer ;;
        frame_loop fuel' env window clearColor (S k) buffer'
  end.

(** Lines 229 to 231. *)
Definition teardown (window : Z) : M unit :=
  call (glfwDestroyWindow window) ;;
  call glfwTerminate ;;
  exit 0.

Definition main (fuel : nat) (env : Env) : M unit :=
  window <- acquire_context env ;;
  report_version env ;;
  let buffer := Buffer_new bufferWidth bufferHeight in
  handles <- build_program env ;;
  let (fullscreenTriangleVAO, shaderId) := handles : Z * Z in
  setup_texture env buffer fullscreenTriangleVAO shaderId ;;
  let clearColor := RGBToUint32 0 128 0 in
  _ <- frame_loop fuel env window clearColor 0 buffer ;;
  teardown window.

(** The calls of one turn of the loop on a buffer of the given dimensions
    and number of cells: the test of the condition, then the body. *)
Definition iteration_calls (window clearColor width height : Z) (cells : nat)
    : list Event :=
  [glfwWindowShouldClose window false;
   Buffer_ClearImage clearColor;
   glTexSubImage2D GL_TEXTURE_2D 0 0 0 (Int.to_int32 width) (Int.to_int32 height)
                   GL_RGBA GL_UNSIGNED_INT_8_8_8_8 (repeat clearColor cells);
   glDrawArrays GL_TRIANGLES 0 3;
   glfwSwapBuffers window;
   glfwPollEvents].

Local Close Scope string_scope.


(** ** Handles and error queries in a sequence of calls *)

(** What the program holds once a call has handed it out. *)
Inductive Handle : Type :=
| H_library                  (* the initialised windowing library *)
| H_window (window : Z)      (* a window and its context *)
| H_vertex_array (array : Z)
| H_program (program : Z)
| H_shader (shader : Z)
| H_texture (texture : Z).

Definition acquires (e : Event) : list Handle :=
  match e with
  | glfwInit true => [H_library]
  | glfwCreateWindow _ _ _ (Some window) => [H_window window]
  | glGenVertexArrays _ array => [H_vertex_array array]
  | glCreateProgram program => [H_program program]
  | glCreateShader _ shader => [H_shader shader]
  | glGenTextures _ texture => [H_texture texture]
  | _ => []
  end.

(** A handle is released by the call that names it; [glfwTerminate] names
    the library.  For a shader the call is [glDeleteShader], which on a
    shader still attached to a program only marks it for deletion. *)
Definition releases (e : Event) : list Handle :=
  match e with
  | glfwTerminate => [H_library]
  | glfwDestroyWindow window => [H_window window]
  | glDeleteVertexArrays _ array => [H_vertex_array array]
  | glDeleteShader shader => [H_shader shader]
  | _ => []
  end.

Definition acquired (t : list Event) : list Handle := flat_map acquires t.
Definition released (t : list Event) : list Handle := flat_map releases t.

(** The handles of the windowing side: the library and the window with
    its context. *)
Definition is_context_handle (h : Handle) : bool :=
  match h with
  | H_library | H_window _ => true
  | _ => false
  end.

Definition touches_context (e : Event) : bool :=
  existsb is_context_handle (acquires e) || existsb is_context_handle (releases e).

(** The calls into the graphics API proper (the [gl] functions other than
    the error query itself). *)
Definition is_gl_call (e : Event) : bool :=
  match e with
  | glGetIntegerv _ _ | glGetString _ _
  | glGenVertexArrays _ _ | glDeleteVertexArrays _ _ | glBindVertexArray _
  | glCreateProgram _ | glCreateShader _ _ | glShaderSource _ _ _
  | glCompileShader _ | glGetShaderInfoLog _ _ _ _ | glAttachShader _ _
  | glDeleteShader _ | glLinkProgram _ | glGetProgramInfoLog _ _ _ _
  | glUseProgram _ | glGenTextures _ _ | glBindTexture _ _
  | glTexImage2D _ _ _ _ _ _ _ _ _ | glTexSubImage2D _ _ _ _ _ _ _ _ _
  | glTexParameteri _ _ _ | glGetUniformLocation _ _ _ | glUniform1i _ _
  | glDisable _ | glActiveTexture _ | glDrawArrays _ _ _ => true
  | _ => false
  end.

Definition is_error_query (e : Event) : bool :=
  match e with
  | glGetError _ => true
  | _ => false
  end.

Definition is_loop_test (e : Event) : bool :=
  match e with
  | glfwWindowShouldClose _ _ => true
  | _ => false
  end.

Definition is_use_program (e : Event) : bool :=
  match e with
  | glUseProgram _ => true
  | _ => false
  end.

(** Every graphics call of [t] has an error query somewhere after it. *)
Definition every_gl_call_checked (t : list Event) : Prop :=
  forall (before : list Event) (e : Event) (after : list Event),
    t = before ++ e :: after ->
    is_gl_call e = true ->
    Exists (fun q => is_error_query q = true) after.

(** Every handle acquired in [t] is released in [t]. *)
Definition every_handle_released (t : list Event) : Prop :=
  forall h : Handle, In h (acquired t) -> In h (released t).

(** The four ways [main] gives up before the loop. *)
Definition link_fails (env : Env) : Prop := env_programLog env <> EmptyString.

Definition fatal (env : Env) : Prop :=
  env_glfwInit env = false \/
  (env_glfwInit env = true /\ env_window env = None) \/
  (env_glfwInit env = true /\ env_window env <> None /\ env_glewInit env = false) \/
  (env_glfwInit env = true /\ env_window env <> None /\ env_glewInit env = true /\
   link_fails env).

(** The window is reported closed at the [n]-th test of the loop condition
    and not before. *)
Definition closes_at (env : Env) (n : nat) : Prop :=
  env_shouldClose env n = true /\
  forall k : nat, (k < n)%nat -> env_shouldClose env k = false.

(** ** Sample runs *)

Local Open Scope string_scope.

(** Libraries that answer as on a working machine, with the given logs,
    pending errors and number of frames before the window is closed. *)
Definition sample_env (init : bool) (window : option Z) (glew : bool)
    (errors : list GLerror) (vertexLog fragmentLog programLog : string)
    (frames : nat) : Env :=
  {| env_glfwInit := init;
     env_window := window;
     env_glewInit := glew;
     env_major := 3;
     env_minor := 3;
     env_errors := errors;
     env_renderer := "Software Rasterizer";
     env_shading := "3.30";
     env_vao := 1;
     env_program := 1;
     env_vertex := 2;
     env_fragment := 3;
     env_vertexLog := vertexLog;
     env_fragmentLog := fragmentLog;
     env_programLog := programLog;
     env_texture := 1;
     env_location := 0;
     env_shouldClose := fun k => (frames <=? k)%nat |}.

Definition working_env (frames : nat) : Env :=
  sample_env true (Some 7) true [] "" "" "" frames.

Local Close Scope string_scope.

(** ** Further notions used in the statements *)

(** The colour of the last [ClearImage] among [ops], if there is one. *)
Fixpoint last_clear (ops : list BufferOp) : option Z :=
  match ops with
  | [] => None
  | op :: rest =>
      match last_clear rest with
      | Some color => Some color
      | None =>
          match op with
          | OpClearImage color => Some color
          | _ => None
          end
      end
  end.

(** The value of the expression of [RGBToUint32] as an [int], before the
    conversion to [uint32_t] on return. *)
Definition RGB_int (r g b : Z) : Z :=
  Z.lor (Z.lor (Z.lor (Int.int_shl r 24) (Int.int_shl g 16)) (Int.int_shl b 8)) 255.

(** A call that needs a current context and a loaded API: a graphics call
    or the error query. *)
Definition needs_context (e : Event) : bool := is_gl_call e || is_error_query e.

Definition is_library_handle (h : Handle) : bool :=
  match h with
  | H_library => true
  | _ => false
  end.

Definition is_shader_handle (h : Handle) : bool :=
  match h with
  | H_shader _ => true
  | _ => false
  end.

(** [e] acquires or releases a handle of the kind [kind]. *)
Definition touches (kind : Handle -> bool) (e : Event) : bool :=
  existsb kind (acquires e) || existsb kind (releases e).

(** Two sets of answers that differ at most in what is only reported:
    the version numbers, the pending errors, the two strings, the handles
    handed out and the logs of the two stages. *)
Definition same_decisions (env env' : Env) : Prop :=
  env_glfwInit env = env_glfwInit env' /\
  (env_window env = None <-> env_window env' = None) /\
  env_glewInit env = env_glewInit env' /\
  (env_programLog env = EmptyString <-> env_programLog env' = EmptyString) /\
  forall k : nat, env_shouldClose env k = env_shouldClose env' k.

(** The lines written to the error stream among the calls [t]. *)
Fixpoint written (t : list Event) : list string :=
  match t with
  | [] => []
  | cerr text :: rest => text :: written rest
  | _ :: rest => written rest
  end.

(** [c] does not occur in [s]. *)
Fixpoint free_of (c : ascii) (s : string) : Prop :=
  match s with
  | EmptyString => True
  | String a rest => a <> c /\ free_of c rest
  end.

(** The shader names handed out by [glCreateShader] and those passed to
    [glDeleteShader] among the calls [t], in order. *)
Fixpoint shaders_created (t : list Event) : list Z :=
  match t with
  | [] => []
  | glCreateShader _ shader :: rest => shader :: shaders_created rest
  | _ :: rest => shaders_created rest
  end.

Fixpoint shaders_deleted (t : list Event) : list Z :=
  match t with
  | [] => []
  | glDeleteShader shader :: rest => shader :: shaders_deleted rest
  | _ :: rest => shaders_deleted rest
  end.

(** ** Lemmas on the integers *)

Lemma to_uint32_to_int32 (z : Z) : Int.to_uint32 (Int.to_int32 z) = Int.to_uint32 z.
Proof.
  unfold Int.to_uint32, Int.to_int32.
  rewrite (Z.mod_eq (z + 2 ^ 31) (2 ^ 32)) by lia.
  replace (z + 2 ^ 31 - 2 ^ 32 * ((z + 2 ^ 31) / 2 ^ 32) - 2 ^ 31)
    with (z + (- ((z + 2 ^ 31) / 2 ^ 32)) * 2 ^ 32) by ring.
  apply Z.mod_add. lia.
Qed.

Lemma to_uint32_lor (a b : Z) :
  Int.to_uint32 (Z.lor a b) = Z.lor (Int.to_uint32 a) (Int.to_uint32 b).
Proof.
  unfold Int.to_uint32.
  rewrite <- !Z.land_ones by lia.
  apply Z.land_lor_distr_l.
Qed.

Lemma to_uint32_small (z : Z) : 0 <= z < 2 ^ 32 -> Int.to_uint32 z = z.
Proof. intro H. unfold Int.to_uint32. apply Z.mod_small. exact H. Qed.

(** A value below [2 ^ k] shares no bit with a multiple of [2 ^ k]. *)
Lemma land_high_low (hi lo k : Z) :
  0 <= k -> 0 <= lo < 2 ^ k -> Z.land (hi * 2 ^ k) lo = 0.
Proof.
  intros Hk Hlo.
  apply Z.bits_inj'. intros n Hn.
  rewrite Z.land_spec, Z.bits_0.
  destruct (Z.lt_ge_cases n k) as [Hlt | Hge].
  - rewrite Z.mul_pow2_bits_low by lia. reflexivity.
  - replace (Z.testbit lo n) with false; [apply andb_false_r |].
    symmetry.
    destruct (Z.eq_dec lo 0) as [-> | Hnz]; [apply Z.bits_0 |].
    apply Z.bits_above_log2; [lia |].
    apply Z.lt_le_trans with k; [| exact Hge].
    apply Z.log2_lt_pow2; lia.
Qed.

Lemma lor_high_low (hi lo k : Z) :
  0 <= k -> 0 <= lo < 2 ^ k -> Z.lor (hi * 2 ^ k) lo = hi * 2 ^ k + lo.
Proof.
  intros Hk Hlo.
  rewrite <- Z.lxor_lor by (apply land_high_low; assumption).
  symmetry. apply Z.add_nocarry_lxor. apply land_high_low; assumption.
Qed.

(** The closed form of the packed colour. *)
Lemma RGBToUint32_value (r g b : Z) :
  Int.is_uint8 r -> Int.is_uint8 g -> Int.is_uint8 b ->
  RGBToUint32 r g b = r * 2 ^ 24 + g * 2 ^ 16 + b * 2 ^ 8 + 255.
Proof.
  unfold Int.is_uint8. intros Hr Hg Hb.
  unfold RGBToUint32, Int.int_shl.
  rewrite !to_uint32_lor, !to_uint32_to_int32, !Z.shiftl_mul_pow2 by lia.
  rewrite !to_uint32_small by lia.
  rewrite (lor_high_low r (g * 2 ^ 16) 24) by lia.
  replace (r * 2 ^ 24 + g * 2 ^ 16) with ((r * 2 ^ 8 + g) * 2 ^ 16) by ring.
  rewrite (lor_high_low (r * 2 ^ 8 + g) (b * 2 ^ 8) 16) by lia.
  replace ((r * 2 ^ 8 + g) * 2 ^ 16 + b * 2 ^ 8)
    with ((r * 2 ^ 16 + g * 2 ^ 8 + b) * 2 ^ 8) by ring.
  rewrite (lor_high_low _ 255 8) by lia.
  ring.
Qed.

Lemma div_high_low (hi lo m : Z) : 0 <= lo < m -> (hi * m + lo) / m = hi.
Proof.
  intro H. rewrite Z.div_add_l by lia. rewrite Z.div_small by exact H. lia.
Qed.

Lemma mod_high_low (hi lo m : Z) : 0 <= lo < m -> (hi * m + lo) mod m = lo.
Proof.
  intro H. rewrite Z.add_comm, Z.mod_add by lia. apply Z.mod_small. exact H.
Qed.

Lemma land_255 (z : Z) : Z.land z 255 = z mod 2 ^ 8.
Proof. change 255 with (Z.ones 8). apply Z.land_ones. lia. Qed.

Lemma red_of_value (r g b : Z) :
  Int.is_uint8 r -> Int.is_uint8 g -> Int.is_uint8 b ->
  red_of (r * 2 ^ 24 + g * 2 ^ 16 + b * 2 ^ 8 + 255) = r.
Proof.
  unfold Int.is_uint8, red_of. intros Hr Hg Hb.
  rewrite land_255, Z.shiftr_div_pow2 by lia.
  replace (r * 2 ^ 24 + g * 2 ^ 16 + b * 2 ^ 8 + 255)
    with (r * 2 ^ 24 + (g * 2 ^ 16 + b * 2 ^ 8 + 255)) by ring.
  rewrite div_high_low by lia. apply Z.mod_small. exact Hr.
Qed.

Lemma green_of_value (r g b : Z) :
  Int.is_uint8 r -> Int.is_uint8 g -> Int.is_uint8 b ->
  green_of (r * 2 ^ 24 + g * 2 ^ 16 + b * 2 ^ 8 + 255) = g.
Proof.
  unfold Int.is_uint8, green_of. intros Hr Hg Hb.
  rewrite land_255, Z.shiftr_div_pow2 by lia.
  replace (r * 2 ^ 24 + g * 2 ^ 16 + b * 2 ^ 8 + 255)
    with ((r * 2 ^ 8 + g) * 2 ^ 16 + (b * 2 ^ 8 + 255)) by ring.
  rewrite div_high_low by lia.
  change (2 ^ 8) with 256.
  rewrite mod_high_low by lia. reflexivity.
Qed.

Lemma blue_of_value (r g b : Z) :
  Int.is_uint8 r -> Int.is_uint8 g -> Int.is_uint8 b ->
  blue_of (r * 2 ^ 24 + g * 2 ^ 16 + b * 2 ^ 8 + 255) = b.
Proof.
  unfold Int.is_uint8, blue_of. intros Hr Hg Hb.
  rewrite land_255, Z.shiftr_div_pow2 by lia.
  replace (r * 2 ^ 24 + g * 2 ^ 16 + b * 2 ^ 8 + 255)
    with ((r * 2 ^ 16 + g * 2 ^ 8 + b) * 2 ^ 8 + 255) by ring.
  rewrite div_high_low by lia.
  replace (r * 2 ^ 16 + g * 2 ^ 8 + b) with ((r * 2 ^ 8 + g) * 2 ^ 8 + b) by ring.
  rewrite mod_high_low by lia. reflexivity.
Qed.

Lemma alpha_of_value (r g b : Z) :
  alpha_of (r * 2 ^ 24 + g * 2 ^ 16 + b * 2 ^ 8 + 255) = 255.
Proof.
  unfold alpha_of. rewrite land_255.
  replace (r * 2 ^ 24 + g * 2 ^ 16 + b * 2 ^ 8 + 255)
    with ((r * 2 ^ 16 + g * 2 ^ 8 + b) * 2 ^ 8 + 255) by ring.
  apply mod_high_low. lia.
Qed.

Lemma Uint32ToRGB_RGBToUint32 (r g b : Z) :
  Int.is_uint8 r -> Int.is_uint8 g -> Int.is_uint8 b ->
  Uint32ToRGB (RGBToUint32 r g b) = (r, g, b).
Proof.
  intros Hr Hg Hb. unfold Uint32ToRGB.
  rewrite RGBToUint32_value by assumption.
  rewrite red_of_value, green_of_value, blue_of_value by assumption.
  reflexivity.
Qed.

(** ** Lemmas on the buffer *)

Lemma assign_each_repeat (color : Z) (image : list Z) :
  assign_each color image = repeat color (length image).
Proof.
  induction image as [| x rest IH]; simpl; [reflexivity | now rewrite IH].
Qed.

Lemma length_assign_each (color : Z) (image : list Z) :
  length (assign_each color image) = length image.
Proof.
  induction image as [| x rest IH]; simpl; [reflexivity | now rewrite IH].
Qed.

Lemma assign_each_all (color : Z) (image : list Z) :
  Forall (eq color) (assign_each color image).
Proof.
  induction image as [| x rest IH]; simpl; constructor; [reflexivity | exact IH].
Qed.

Lemma assign_each_twice (color : Z) (image : list Z) :
  assign_each color (assign_each color image) = assign_each color image.
Proof.
  induction image as [| x rest IH]; simpl; [reflexivity | now rewrite IH].
Qed.

Lemma vector_resize_nil (n : Z) : vector_resize [] n = repeat 0 (Z.to_nat n).
Proof.
  unfold vector_resize. rewrite firstn_nil. simpl.
  rewrite Nat.sub_0_r. reflexivity.
Qed.

Lemma Buffer_new_image (w h : Z) :
  image_ (Buffer_new w h) = repeat 0 (Z.to_nat (Int.size_mul w h)).
Proof.
  unfold Buffer_new, ClearImage. cbn [image_].
  rewrite assign_each_repeat, vector_resize_nil, repeat_length. reflexivity.
Qed.

Lemma Buffer_new_length (w h : Z) :
  Z.of_nat (length (image_ (Buffer_new w h))) = Int.size_mul w h.
Proof.
  rewrite Buffer_new_image, repeat_length.
  apply Z2Nat.id. unfold Int.size_mul, Int.to_size_t.
  apply Z.mod_pos_bound. reflexivity.
Qed.

Lemma size_mul_exact (w h : Z) :
  0 <= w * h < Int.size_max -> Int.size_mul w h = w * h.
Proof. intro H. unfold Int.size_mul, Int.to_size_t. apply Z.mod_small. exact H. Qed.

(** What one operation keeps: the two dimensions and the number of cells. *)
Lemma apply_op_keeps (b : Buffer) (op : BufferOp) :
  width_ (fst (apply_op b op)) = width_ b /\
  height_ (fst (apply_op b op)) = height_ b /\
  length (image_ (fst (apply_op b op))) = length (image_ b).
Proof.
  destruct op; cbn; repeat split; try reflexivity.
  apply length_assign_each.
Qed.

Lemma apply_ops_keeps (ops : list BufferOp) : forall b : Buffer,
  width_ (fst (apply_ops b ops)) = width_ b /\
  height_ (fst (apply_ops b ops)) = height_ b /\
  length (image_ (fst (apply_ops b ops))) = length (image_ b).
Proof.
  induction ops as [| op rest IH]; intro b; [cbn; auto |].
  cbn [apply_ops].
  destruct (apply_op_keeps b op) as (Hw & Hh & Hl).
  destruct (apply_op b op) as [b1 o] eqn:E1. cbn [fst] in Hw, Hh, Hl.
  destruct (IH b1) as (Hw' & Hh' & Hl').
  destruct (apply_ops b1 rest) as [b2 os]. cbn [fst] in *.
  repeat split; congruence.
Qed.

Lemma apply_ops_obs (ops : list BufferOp) : forall b : Buffer,
  Forall (obs_agrees (width_ b) (height_ b) (length (image_ b)))
         (snd (apply_ops b ops)).
Proof.
  induction ops as [| op rest IH]; intro b; [constructor |].
  cbn [apply_ops].
  destruct (apply_op_keeps b op) as (Hw & Hh & Hl).
  assert (Ho : obs_agrees (width_ b) (height_ b) (length (image_ b))
                          (snd (apply_op b op))) by (destruct op; cbn; auto).
  destruct (apply_op b op) as [b1 o]. cbn [fst snd] in *.
  specialize (IH b1). rewrite Hw, Hh, Hl in IH.
  destruct (apply_ops b1 rest) as [b2 os]. cbn [snd] in *.
  constructor; assumption.
Qed.

(** ** The buffer: clearing, construction, invariant *)

(** [ClearImage] on any buffer, whatever it held before: every cell the
    buffer has is left equal to [color]; the number of cells and the two
    dimensions are as before; clearing a second time with the same colour
    changes nothing. *)
Lemma ClearImage_sets_every_cell (b : Buffer) (color : Z) :
  Forall (eq color) (GetImage (ClearImage color b)) /\
  GetImage (ClearImage color b) = repeat color (length (GetImage b)) /\
  (forall i : nat, (i < length (GetImage b))%nat ->
     nth_error (GetImage (ClearImage color b)) i = Some color) /\
  length (GetImage (ClearImage color b)) = length (GetImage b) /\
  GetWidth (ClearImage color b) = GetWidth b /\
  GetHeight (ClearImage color b) = GetHeight b /\
  ClearImage color (ClearImage color b) = ClearImage color b.
Proof.
  unfold GetImage, GetWidth, GetHeight, ClearImage. cbn [image_ width_ height_].
  repeat split.
  - apply assign_each_all.
  - apply assign_each_repeat.
  - intros i Hi. rewrite assign_each_repeat.
    apply nth_error_repeat. exact Hi.
  - apply length_assign_each.
  - now rewrite assign_each_twice.
Qed.

(** C2, as the code has it.  For positive [W] and [H] the constructor,
    when it completes, yields a buffer with [W] and [H] as its dimensions
    and [W * H] reduced modulo [2 ^ 64] cells, every one of them zero: that
    is exactly [W * H] cells when the product fits [size_t], and fewer when
    it does not.  The constructor checks nothing and is a total function of
    [W] and [H]: an allocation refused inside [std::vector] is the only way
    a construction does not complete. *)
Theorem Buffer_new_cells (W H : Z) :
  0 < W -> 0 < H ->
  Z.of_nat (length (GetImage (Buffer_new W H))) = (W * H) mod Int.size_max /\
  GetImage (Buffer_new W H) = repeat 0 (Z.to_nat ((W * H) mod Int.size_max)) /\
  (W * H < Int.size_max ->
     Z.of_nat (length (GetImage (Buffer_new W H))) = W * H /\
     GetImage (Buffer_new W H) = repeat 0 (Z.to_nat (W * H))) /\
  (Int.size_max <= W * H ->
     Z.of_nat (length (GetImage (Buffer_new W H))) < W * H) /\
  Forall (eq 0) (GetImage (Buffer_new W H)) /\
  GetWidth (Buffer_new W H) = W /\
  GetHeight (Buffer_new W H) = H.
Proof.
  intros HW HH. unfold GetImage, GetWidth, GetHeight.
  split; [apply Buffer_new_length |].
  split; [apply Buffer_new_image |].
  split.
  { intro Hfit.
    assert (Hmod : Int.size_mul W H = W * H) by (apply size_mul_exact; nia).
    split; [rewrite Buffer_new_length; exact Hmod |].
    rewrite Buffer_new_image, Hmod. reflexivity. }
  split.
  { intro Hwrap. rewrite Buffer_new_length.
    unfold Int.size_mul, Int.to_size_t.
    pose proof (Z.mod_pos_bound (W * H) Int.size_max eq_refl). lia. }
  split; [apply assign_each_all |].
  split; reflexivity.
Qed.

Lemma Buffer_new_cells_witness :
  Z.of_nat (length (GetImage (Buffer_new 4 4))) = 16 /\
  Forall (eq 0) (GetImage (Buffer_new 4 4)).
Proof.
  destruct (Buffer_new_cells 4 4 eq_refl eq_refl) as (_ & _ & Hfit & _ & Hall & _).
  destruct (Hfit eq_refl) as [Hlen _].
  split; [exact Hlen | exact Hall].
Defined.

(** C2 as stated fails where the [size_t] product wraps: both dimensions
    [2 ^ 32] are positive values of [size_t], the product computed by the
    constructor is 0, and the buffer has no cell at all. *)
Lemma Buffer_new_overflow :
  0 < 2 ^ 32 /\ Int.is_size_t (2 ^ 32) /\
  GetWidth (Buffer_new (2 ^ 32) (2 ^ 32)) = 2 ^ 32 /\
  GetHeight (Buffer_new (2 ^ 32) (2 ^ 32)) = 2 ^ 32 /\
  GetImage (Buffer_new (2 ^ 32) (2 ^ 32)) = [] /\
  Z.of_nat (length (GetImage (Buffer_new (2 ^ 32) (2 ^ 32)))) <> 2 ^ 32 * 2 ^ 32.
Proof.
  unfold Int.is_size_t.
  repeat split; try reflexivity; try discriminate.
Qed.

(** C4, as the code has it.  After any sequence of clears and reads on a
    constructed buffer, the number of cells is the one the constructor
    left, which is [width * height] reduced modulo [2 ^ 64] and so equals
    [width * height] whenever that product fits [size_t]; the two
    dimensions are the ones given at construction; and every read along the
    way reported those dimensions and that many cells. *)
Theorem Buffer_invariant (W H : Z) (ops : list BufferOp) :
  0 < W -> 0 < H ->
  let b0 := Buffer_new W H in
  let b := fst (apply_ops b0 ops) in
  length (GetImage b) = length (GetImage b0) /\
  Z.of_nat (length (GetImage b)) = (GetWidth b * GetHeight b) mod Int.size_max /\
  (W * H < Int.size_max ->
     Z.of_nat (length (GetImage b)) = GetWidth b * GetHeight b) /\
  GetWidth b = W /\
  GetHeight b = H /\
  Forall (obs_agrees W H (length (GetImage b0))) (snd (apply_ops b0 ops)).
Proof.
  intros HW HH b0 b. unfold GetImage, GetWidth, GetHeight.
  destruct (apply_ops_keeps ops b0) as (Hw & Hh & Hl). fold b in Hw, Hh, Hl.
  assert (Hw0 : width_ b0 = W) by reflexivity.
  assert (Hh0 : height_ b0 = H) by reflexivity.
  assert (Hlen : Z.of_nat (length (image_ b)) = (W * H) mod Int.size_max).
  { rewrite Hl. apply Buffer_new_length. }
  repeat split.
  - exact Hl.
  - rewrite Hw, Hh, Hw0, Hh0. exact Hlen.
  - intro Hfit. rewrite Hw, Hh, Hw0, Hh0, Hlen. apply Z.mod_small. nia.
  - congruence.
  - congruence.
  - exact (apply_ops_obs ops b0).
Qed.

Lemma Buffer_invariant_witness :
  let b := fst (apply_ops (Buffer_new 4 4) [OpClearImage 7; OpGetWidth; OpGetImage]) in
  Z.of_nat (length (GetImage b)) = GetWidth b * GetHeight b /\
  GetWidth b = 4 /\ GetHeight b = 4.
Proof.
  pose proof (Buffer_invariant 4 4 [OpClearImage 7; OpGetWidth; OpGetImage]
                eq_refl eq_refl) as Hinv.
  cbv zeta in Hinv. destruct Hinv as (_ & _ & Hfit & Hw & Hh & _).
  intro b. split; [apply Hfit; reflexivity | split; [exact Hw | exact Hh]].
Defined.

(** C4 as stated fails on a buffer built with dimensions whose product
    wraps: after a clear and a read it still has width [2 ^ 32], height
    [2 ^ 32] and no cell. *)
Lemma Buffer_invariant_overflow :
  let b := fst (apply_ops (Buffer_new (2 ^ 32) (2 ^ 32)) [OpClearImage 7; OpGetWidth]) in
  GetWidth b = 2 ^ 32 /\ GetHeight b = 2 ^ 32 /\
  Z.of_nat (length (GetImage b)) = 0 /\
  Z.of_nat (length (GetImage b)) <> GetWidth b * GetHeight b.
Proof.
  repeat split; try reflexivity; discriminate.
Qed.

(** C1, as the code has it.  Take a buffer constructed with positive [W]
    and [H], at any later time (after any clears and reads).  [ClearImage]
    with colour [color] leaves it with [W * H] reduced modulo [2 ^ 64]
    cells, every one of them [color]: there is no outcome in which only some
    cells are set.  When the product fits [size_t] these are the [W * H]
    cells, each readable as [color].  The dimensions stay [W] and [H], and a
    second clear with the same colour changes nothing. *)
Theorem ClearImage_created (W H color : Z) (ops : list BufferOp) :
  0 < W -> 0 < H ->
  let b := fst (apply_ops (Buffer_new W H) ops) in
  GetImage (ClearImage color b) = repeat color (Z.to_nat ((W * H) mod Int.size_max)) /\
  Z.of_nat (length (GetImage (ClearImage color b))) = (W * H) mod Int.size_max /\
  Forall (eq color) (GetImage (ClearImage color b)) /\
  (W * H < Int.size_max ->
     GetImage (ClearImage color b) = repeat color (Z.to_nat (W * H)) /\
     Z.of_nat (length (GetImage (ClearImage color b))) = W * H /\
     forall i : Z, 0 <= i < W * H ->
       nth_error (GetImage (ClearImage color b)) (Z.to_nat i) = Some color) /\
  GetWidth (ClearImage color b) = W /\
  GetHeight (ClearImage color b) = H /\
  ClearImage color (ClearImage color b) = ClearImage color b.
Proof.
  intros HW HH b.
  destruct (apply_ops_keeps ops (Buffer_new W H)) as (Hw & Hh & Hl). fold b in Hw, Hh, Hl.
  destruct (ClearImage_sets_every_cell b color)
    as (Hall & Himage & _ & Hlen & Hcw & Hch & Htwice).
  assert (Hcells : length (GetImage b) = Z.to_nat ((W * H) mod Int.size_max)).
  { unfold GetImage. rewrite Hl. apply Nat2Z.inj.
    rewrite Buffer_new_length, Z2Nat.id; [reflexivity |].
    apply Z.mod_pos_bound. reflexivity. }
  assert (Hnonneg : 0 <= (W * H) mod Int.size_max)
    by (apply Z.mod_pos_bound; reflexivity).
  split; [rewrite Himage, Hcells; reflexivity |].
  split; [rewrite Hlen, Hcells; apply Z2Nat.id; exact Hnonneg |].
  split; [exact Hall |].
  split.
  { intro Hfit.
    assert (Hmod : (W * H) mod Int.size_max = W * H) by (apply Z.mod_small; nia).
    rewrite Hmod in Hcells.
    split; [rewrite Himage, Hcells; reflexivity |].
    split; [rewrite Hlen, Hcells; apply Z2Nat.id; nia |].
    intros i Hi. rewrite Himage, Hcells. apply nth_error_repeat. lia. }
  split; [rewrite Hcw; exact Hw |].
  split; [rewrite Hch; exact Hh |].
  exact Htwice.
Qed.

Lemma ClearImage_created_witness :
  GetImage (ClearImage 7 (fst (apply_ops (Buffer_new 4 4) [OpClearImage 1; OpGetImage])))
  = repeat 7 (Z.to_nat (4 * 4)).
Proof.
  pose proof (ClearImage_created 4 4 7 [OpClearImage 1; OpGetImage] eq_refl eq_refl)
    as Hclear.
  cbv zeta in Hclear. destruct Hclear as (_ & _ & _ & Hfit & _).
  destruct (Hfit eq_refl) as (Himage & _). exact Himage.
Defined.

(** C1 as stated fails where the [size_t] product wraps: the buffer
    constructed with both dimensions [2 ^ 32] has no cell, and after a clear
    it still has none, not [2 ^ 32 * 2 ^ 32] cells of the colour. *)
Lemma ClearImage_overflow :
  0 < 2 ^ 32 /\ Int.is_size_t (2 ^ 32) /\ Int.is_uint32 7 /\
  GetImage (ClearImage 7 (Buffer_new (2 ^ 32) (2 ^ 32))) = [] /\
  Z.of_nat (length (GetImage (ClearImage 7 (Buffer_new (2 ^ 32) (2 ^ 32)))))
  <> 2 ^ 32 * 2 ^ 32.
Proof.
  unfold Int.is_size_t, Int.is_uint32.
  repeat split; try reflexivity; try discriminate.
Qed.

(** ** The packed colour *)

(** C3.  On channels in 0..255, unpacking a packed colour gives back the
    three channels, with the alpha byte at its maximum; hence two triples
    packed to the same value are the same triple. *)
Theorem RGBToUint32_left_inverse (r g b r' g' b' : Z) :
  Int.is_uint8 r -> Int.is_uint8 g -> Int.is_uint8 b ->
  Int.is_uint8 r' -> Int.is_uint8 g' -> Int.is_uint8 b' ->
  Uint32ToRGB (RGBToUint32 r g b) = (r, g, b) /\
  alpha_of (RGBToUint32 r g b) = 255 /\
  (RGBToUint32 r g b = RGBToUint32 r' g' b' -> (r, g, b) = (r', g', b')).
Proof.
  intros Hr Hg Hb Hr' Hg' Hb'. repeat split.
  - apply Uint32ToRGB_RGBToUint32; assumption.
  - rewrite RGBToUint32_value by assumption. apply alpha_of_value.
  - intro Heq.
    rewrite <- (Uint32ToRGB_RGBToUint32 r g b) by assumption.
    rewrite <- (Uint32ToRGB_RGBToUint32 r' g' b') by assumption.
    now rewrite Heq.
Qed.

Lemma RGBToUint32_left_inverse_witness :
  Uint32ToRGB (RGBToUint32 0 128 0) = (0, 128, 0) /\
  alpha_of (RGBToUint32 0 128 0) = 255.
Proof.
  assert (H0 : Int.is_uint8 0) by (unfold Int.is_uint8; lia).
  assert (H128 : Int.is_uint8 128) by (unfold Int.is_uint8; lia).
  assert (H255 : Int.is_uint8 255) by (unfold Int.is_uint8; lia).
  destruct (RGBToUint32_left_inverse 0 128 0 255 0 0 H0 H128 H0 H255 H0 H0)
    as (Hinv & Halpha & _).
  split; [exact Hinv | exact Halpha].
Defined.

(** C10.  On channels in 0..255 the packed colour is
    [r * 2^24 + g * 2^16 + b * 2^8 + 255], a 32-bit value: red is the most
    significant byte, then green, then blue, and the least significant byte
    is 255 whatever the channels. *)
Theorem RGBToUint32_layout (r g b : Z) :
  Int.is_uint8 r -> Int.is_uint8 g -> Int.is_uint8 b ->
  RGBToUint32 r g b = r * 2 ^ 24 + g * 2 ^ 16 + b * 2 ^ 8 + 255 /\
  RGBToUint32 r g b = (r * 2 ^ 24 + g * 2 ^ 16 + b * 2 ^ 8 + 255) mod 2 ^ 32 /\
  Int.is_uint32 (RGBToUint32 r g b) /\
  Z.shiftr (RGBToUint32 r g b) 24 = r /\
  Z.land (Z.shiftr (RGBToUint32 r g b) 16) 255 = g /\
  Z.land (Z.shiftr (RGBToUint32 r g b) 8) 255 = b /\
  Z.land (RGBToUint32 r g b) 255 = 255.
Proof.
  intros Hr Hg Hb.
  assert (Hv := RGBToUint32_value r g b Hr Hg Hb).
  assert (Hrange : Int.is_uint32 (r * 2 ^ 24 + g * 2 ^ 16 + b * 2 ^ 8 + 255)).
  { unfold Int.is_uint8 in *. unfold Int.is_uint32. lia. }
  rewrite Hv.
  split; [reflexivity |].
  split; [symmetry; apply Z.mod_small; exact Hrange |].
  split; [exact Hrange |].
  split.
  { unfold Int.is_uint8 in *. rewrite Z.shiftr_div_pow2 by lia.
    replace (r * 2 ^ 24 + g * 2 ^ 16 + b * 2 ^ 8 + 255)
      with (r * 2 ^ 24 + (g * 2 ^ 16 + b * 2 ^ 8 + 255)) by ring.
    apply div_high_low. lia. }
  split; [apply (green_of_value r g b); assumption |].
  split; [apply (blue_of_value r g b); assumption |].
  apply (alpha_of_value r g b).
Qed.

Lemma RGBToUint32_layout_witness :
  RGBToUint32 0 128 0 = 0 * 2 ^ 24 + 128 * 2 ^ 16 + 0 * 2 ^ 8 + 255 /\
  Z.land (RGBToUint32 0 128 0) 255 = 255.
Proof.
  assert (H0 : Int.is_uint8 0) by (unfold Int.is_uint8; lia).
  assert (H128 : Int.is_uint8 128) by (unfold Int.is_uint8; lia).
  destruct (RGBToUint32_layout 0 128 0 H0 H128 H0) as (Hv & _ & _ & _ & _ & _ & Ha).
  split; [exact Hv | exact Ha].
Defined.

(** ** Sequencing lemmas *)

Lemma bind_eq {A B : Type} (m : M A) (f : A -> M B) :
  bind m f =
  match snd m with
  | Next a => (fst m ++ fst (f a), snd (f a))
  | Return code => (fst m, Return code)
  | Pending => (fst m, Pending)
  end.
Proof.
  destruct m as [t [a | code |]]; cbn [bind fst snd]; try reflexivity.
  destruct (f a); reflexivity.
Qed.

Lemma bind_call {B : Type} (e : Event) (f : unit -> M B) :
  bind (call e) f = (e :: fst (f tt), snd (f tt)).
Proof. rewrite bind_eq. reflexivity. Qed.

(** Brings a sequence of calls built with [++] and [::] to one
    right-nested list. *)
Ltac flatten_calls := repeat progress (repeat rewrite <- app_assoc; cbn [app]).

(** ** The diagnostic helpers, call by call *)

Lemma GLDebug_calls (file : string) (line : Z) (errors : list GLerror) :
  GLDebug file line errors =
  (flat_map (fun errorNo =>
               [glGetError (Some errorNo);
                cerr (errorString errorNo ++ " - " ++ file ++ " : " ++ dec line ++ endl)%string])
            errors ++ [glGetError None],
   Next tt).
Proof.
  induction errors as [| errorNo rest IH]; [reflexivity |].
  cbn [GLDebug flat_map]. rewrite !bind_call, IH. reflexivity.
Qed.

Lemma read_info_log_length (infoLog : string) :
  (0 <? fst (read_info_log BUFFER_SIZE infoLog)) = true <-> infoLog <> EmptyString.
Proof.
  unfold read_info_log. cbn [fst].
  replace (Z.to_nat (BUFFER_SIZE - 1)) with (S 510) by reflexivity.
  destruct infoLog as [| c rest]; cbn [substring String.length].
  - split; [discriminate | intro H; now elim H].
  - split; [discriminate | intros _; apply Z.ltb_lt; lia].
Qed.

Lemma read_info_log_buffer (infoLog : string) :
  infoLog <> EmptyString -> snd (read_info_log BUFFER_SIZE infoLog) <> EmptyString.
Proof.
  unfold read_info_log. cbn [snd].
  replace (Z.to_nat (BUFFER_SIZE - 1)) with (S 510) by reflexivity.
  destruct infoLog as [| c rest]; cbn [substring]; [intro H; now elim H | discriminate].
Qed.

Lemma ValidateShader_calls (shader : Z) (file infoLog : string) :
  ValidateShader shader file infoLog =
  (glGetShaderInfoLog shader BUFFER_SIZE (fst (read_info_log BUFFER_SIZE infoLog))
                      (snd (read_info_log BUFFER_SIZE infoLog))
   :: (if 0 <? fst (read_info_log BUFFER_SIZE infoLog)
       then [cerr ("Shader " ++ dec shader ++ "(" ++ file ++ ") compile error: "
                     ++ snd (read_info_log BUFFER_SIZE infoLog) ++ endl)%string]
       else []),
   Next tt).
Proof.
  unfold ValidateShader.
  destruct (read_info_log BUFFER_SIZE infoLog) as [len buffer]. cbn [fst snd].
  rewrite bind_call. destruct (0 <? len); reflexivity.
Qed.

Lemma ValidateProgram_calls (program : Z) (infoLog : string) :
  ValidateProgram program infoLog =
  if 0 <? fst (read_info_log BUFFER_SIZE infoLog)
  then ([glGetProgramInfoLog program BUFFER_SIZE (fst (read_info_log BUFFER_SIZE infoLog))
                             (snd (read_info_log BUFFER_SIZE infoLog));
         cerr ("Program " ++ dec program ++ " link error: "
                 ++ snd (read_info_log BUFFER_SIZE infoLog) ++ endl)%string],
        Next false)
  else ([glGetProgramInfoLog program BUFFER_SIZE (fst (read_info_log BUFFER_SIZE infoLog))
                             (snd (read_info_log BUFFER_SIZE infoLog))],
        Next true).
Proof.
  unfold ValidateProgram.
  destruct (read_info_log BUFFER_SIZE infoLog) as [len buffer]. cbn [fst snd].
  rewrite bind_call. destruct (0 <? len); reflexivity.
Qed.

(** [ValidateProgram] hands back [true] exactly when the program's info
    log is empty. *)
Lemma ValidateProgram_result (program : Z) (infoLog : string) :
  snd (ValidateProgram program infoLog) = Next true <-> infoLog = EmptyString.
Proof.
  rewrite ValidateProgram_calls.
  destruct (0 <? fst (read_info_log BUFFER_SIZE infoLog)) eqn:E; cbn [snd].
  - apply read_info_log_length in E. split; [discriminate | intro H; now elim E].
  - split; [intros _ | reflexivity].
    destruct infoLog as [| c rest]; [reflexivity |].
    assert (H : (0 <? fst (read_info_log BUFFER_SIZE (String c rest))) = true)
      by (apply read_info_log_length; discriminate).
    congruence.
Qed.

(** ** The phases of [main], call by call *)

Lemma acquire_context_result (env : Env) :
  snd (acquire_context env) =
  if env_glfwInit env
  then match env_window env with
       | Some window => if env_glewInit env then Next window else Return (-1)
       | None => Return (-1)
       end
  else Return (-1).
Proof.
  unfold acquire_context.
  destruct (env_glfwInit env), (env_window env) as [window |], (env_glewInit env);
    reflexivity.
Qed.

Lemma acquire_context_calls (env : Env) (window : Z) :
  env_glfwInit env = true -> env_window env = Some window -> env_glewInit env = true ->
  acquire_context env =
  ([glfwSetErrorCallback; glfwInit true;
    glfwWindowHint GLFW_OPENGL_PROFILE (Sym GLFW_OPENGL_CORE_PROFILE);
    glfwWindowHint GLFW_CONTEXT_VERSION_MAJOR (Num 3);
    glfwWindowHint GLFW_CONTEXT_VERSION_MINOR (Num 3);
    glfwWindowHint GLFW_OPENGL_FORWARD_COMPAT (Sym GL_TRUE);
    glfwCreateWindow 224 256 "Space Invaders" (Some window);
    glfwMakeContextCurrent window; glewInit true],
   Next window).
Proof.
  intros Hinit Hwin Hglew. unfold acquire_context.
  rewrite Hinit, Hwin, Hglew. reflexivity.
Qed.

Lemma report_version_calls (env : Env) :
  report_version env =
  (glGetIntegerv GL_MAJOR_VERSION (env_major env)
   :: glGetIntegerv GL_MINOR_VERSION (env_minor env)
   :: fst (GLDebug FILE_ 114 (env_errors env))
   ++ [cout ("Using OpenGL: " ++ dec (env_major env) ++ "." ++ dec (env_minor env)
               ++ endl)%string;
       glGetString GL_RENDERER (env_renderer env);
       cout ("Renderer used: " ++ env_renderer env ++ endl)%string;
       glGetString GL_SHADING_LANGUAGE_VERSION (env_shading env);
       cout ("Shading Language: " ++ env_shading env ++ endl)%string],
   Next tt).
Proof.
  unfold report_version. rewrite !bind_call, bind_eq, GLDebug_calls.
  reflexivity.
Qed.

Lemma build_stage_calls (type : GLconst) (shader : Z) (source infoLog : string)
    (shaderId : Z) :
  build_stage type shader source infoLog shaderId =
  (glCreateShader type shader
   :: glShaderSource shader 1 source
   :: glCompileShader shader
   :: fst (ValidateShader shader source infoLog)
   ++ [glAttachShader shaderId shader; glDeleteShader shader],
   Next tt).
Proof.
  unfold build_stage. rewrite !bind_call, bind_eq, ValidateShader_calls.
  reflexivity.
Qed.

(** The calls of [build_program] up to and including [glLinkProgram]. *)
Lemma build_program_calls (env : Env) :
  build_program env =
  let built :=
    glGenVertexArrays 1 (env_vao env)
    :: glCreateProgram (env_program env)
    :: fst (build_stage GL_VERTEX_SHADER (env_vertex env) vertexShader
                        (env_vertexLog env) (env_program env))
    ++ fst (build_stage GL_FRAGMENT_SHADER (env_fragment env) fragmentShader
                        (env_fragmentLog env) (env_program env))
    ++ glLinkProgram (env_program env)
    :: fst (ValidateProgram (env_program env) (env_programLog env)) in
  if 0 <? fst (read_info_log BUFFER_SIZE (env_programLog env))
  then (built ++ [cerr ("Error while validating program" ++ endl)%string;
                  glfwTerminate;
                  glDeleteVertexArrays 1 (env_vao env)],
        Return (-1))
  else (built, Next (env_vao env, env_program env)).
Proof.
  unfold build_program. rewrite !bind_call.
  rewrite (bind_eq (build_stage GL_VERTEX_SHADER _ _ _ _)), build_stage_calls.
  cbn [fst snd].
  rewrite (bind_eq (build_stage GL_FRAGMENT_SHADER _ _ _ _)), build_stage_calls.
  cbn [fst snd].
  rewrite bind_eq, ValidateProgram_calls.
  destruct (0 <? fst (read_info_log BUFFER_SIZE (env_programLog env)));
    cbn [fst snd negb exit ret]; flatten_calls;
    rewrite ?app_nil_r; reflexivity.
Qed.

Lemma setup_texture_result (env : Env) (buffer : Buffer) (vao shaderId : Z) :
  snd (setup_texture env buffer vao shaderId) = Next tt.
Proof. reflexivity. Qed.

Lemma frame_calls (window clearColor : Z) (buffer : Buffer) :
  frame window clearColor buffer =
  (tl (iteration_calls window clearColor (width_ buffer) (height_ buffer)
                       (length (image_ buffer))),
   Next (ClearImage clearColor buffer)).
Proof.
  unfold frame, iteration_calls. rewrite !bind_call. cbn [tl fst snd ret].
  unfold GetWidth, GetHeight, GetImage, ClearImage. cbn [width_ height_ image_].
  rewrite assign_each_repeat. reflexivity.
Qed.

Lemma report_version_result (env : Env) : snd (report_version env) = Next tt.
Proof. rewrite report_version_calls. reflexivity. Qed.

Lemma build_program_result (env : Env) :
  snd (build_program env) =
  if 0 <? fst (read_info_log BUFFER_SIZE (env_programLog env))
  then Return (-1)
  else Next (env_vao env, env_program env).
Proof.
  rewrite build_program_calls. cbv zeta.
  destruct (0 <? fst (read_info_log BUFFER_SIZE (env_programLog env))); reflexivity.
Qed.

(** ** The loop *)

Section Loop.

Variable env : Env.
Variables window clearColor : Z.

Lemma iteration_calls_cleared (color : Z) (b : Buffer) :
  iteration_calls window clearColor (width_ (ClearImage color b))
                  (height_ (ClearImage color b)) (length (image_ (ClearImage color b))) =
  iteration_calls window clearColor (width_ b) (height_ b) (length (image_ b)).
Proof.
  unfold ClearImage. cbn [width_ height_ image_].
  rewrite length_assign_each. reflexivity.
Qed.

(** The window reported closed at the [n]-th test from [k] on: [n] turns,
    the test that ends the loop, and control goes on. *)
Lemma frame_loop_closes (n : nat) : forall (fuel k : nat) (b : Buffer),
  (n < fuel)%nat ->
  env_shouldClose env (k + n) = true ->
  (forall i : nat, (i < n)%nat -> env_shouldClose env (k + i) = false) ->
  exists b' : Buffer,
    frame_loop fuel env window clearColor k b =
    (concat (repeat (iteration_calls window clearColor (width_ b) (height_ b)
                                     (length (image_ b))) n)
     ++ [glfwWindowShouldClose window true],
     Next b').
Proof.
  induction n as [| n IH]; intros fuel k b Hfuel Hclose Hopen;
    (destruct fuel as [| fuel]; [lia |]); cbn [frame_loop].
  - rewrite Nat.add_0_r in Hclose. rewrite Hclose, bind_call.
    exists b. reflexivity.
  - assert (H0 : env_shouldClose env k = false).
    { rewrite <- (Nat.add_0_r k). apply Hopen. lia. }
    rewrite H0, bind_call, bind_eq, frame_calls. cbn [fst snd].
    destruct (IH fuel (S k) (ClearImage clearColor b)) as [b' Hb'].
    + lia.
    + rewrite <- Hclose. f_equal. lia.
    + intros i Hi. rewrite <- (Hopen (S i)) by lia. f_equal. lia.
    + exists b'. rewrite Hb', iteration_calls_cleared. reflexivity.
Qed.

(** The window not reported closed at any of the [fuel] tests from [k]
    on: [fuel] turns, and the loop still running. *)
Lemma frame_loop_pending (fuel : nat) : forall (k : nat) (b : Buffer),
  (forall i : nat, (i < fuel)%nat -> env_shouldClose env (k + i) = false) ->
  frame_loop fuel env window clearColor k b =
  (concat (repeat (iteration_calls window clearColor (width_ b) (height_ b)
                                   (length (image_ b))) fuel),
   Pending).
Proof.
  induction fuel as [| fuel IH]; intros k b Hopen; cbn [frame_loop]; [reflexivity |].
  assert (H0 : env_shouldClose env k = false).
  { rewrite <- (Nat.add_0_r k). apply Hopen. lia. }
  rewrite H0, bind_call, bind_eq, frame_calls. cbn [fst snd].
  rewrite IH.
  - rewrite iteration_calls_cleared. reflexivity.
  - intros i Hi. rewrite <- (Hopen (S i)) by lia. f_equal. lia.
Qed.

(** Within any fuel the loop either is still running, the window never
    having been reported closed, or was left at a first test that reported
    it closed. *)
Lemma frame_loop_cases (fuel : nat) :
  (forall i : nat, (i < fuel)%nat -> env_shouldClose env i = false) \/
  (exists n : nat, (n < fuel)%nat /\ closes_at env n).
Proof.
  induction fuel as [| fuel IH]; [left; intros i Hi; lia |].
  destruct IH as [Hopen | (n & Hn & Hc)].
  - destruct (env_shouldClose env fuel) eqn:E.
    + right. exists fuel. split; [lia |]. split; [exact E |].
      intros k Hk. apply Hopen. exact Hk.
    + left. intros i Hi.
      destruct (Nat.eq_dec i fuel) as [-> | Hne]; [exact E | apply Hopen; lia].
  - right. exists n. split; [lia | exact Hc].
Qed.

End Loop.

(** ** [main] as a whole *)

Lemma main_without_context (fuel : nat) (env : Env) (code : Z) :
  snd (acquire_context env) = Return code ->
  main fuel env = (fst (acquire_context env), Return code).
Proof. intro H. unfold main. rewrite bind_eq, H. reflexivity. Qed.

Lemma main_with_context (fuel : nat) (env : Env) (window : Z) :
  env_glfwInit env = true -> env_window env = Some window -> env_glewInit env = true ->
  main fuel env =
  let built :=
    fst (acquire_context env) ++ fst (report_version env) ++ fst (build_program env) in
  let buffer := Buffer_new bufferWidth bufferHeight in
  if 0 <? fst (read_info_log BUFFER_SIZE (env_programLog env))
  then (built, Return (-1))
  else
    let shown :=
      _ <- frame_loop fuel env window (RGBToUint32 0 128 0) 0 buffer ;;
      teardown window in
    (built ++ fst (setup_texture env buffer (env_vao env) (env_program env)) ++ fst shown,
     snd shown).
Proof.
  intros Hinit Hwin Hglew. unfold main. cbv zeta.
  generalize (Buffer_new bufferWidth bufferHeight). intro buffer.
  generalize (RGBToUint32 0 128 0). intro clearColor.
  rewrite bind_eq, acquire_context_result, Hinit, Hwin, Hglew.
  rewrite (bind_eq (report_version env)), report_version_result.
  rewrite (bind_eq (build_program env)), build_program_result.
  destruct (0 <? fst (read_info_log BUFFER_SIZE (env_programLog env))).
  - reflexivity.
  - rewrite (bind_eq (setup_texture _ _ _ _)), setup_texture_result.
    cbn [fst snd]. rewrite <- !app_assoc. reflexivity.
Qed.

Lemma link_check_passes (env : Env) :
  env_programLog env = EmptyString ->
  (0 <? fst (read_info_log BUFFER_SIZE (env_programLog env))) = false.
Proof. intro H. rewrite H. reflexivity. Qed.

Lemma link_check_fails (env : Env) :
  env_programLog env <> EmptyString ->
  (0 <? fst (read_info_log BUFFER_SIZE (env_programLog env))) = true.
Proof. apply read_info_log_length. Qed.

Lemma Buffer_new_iteration_calls (window clearColor : Z) :
  iteration_calls window clearColor
                  (width_ (Buffer_new bufferWidth bufferHeight))
                  (height_ (Buffer_new bufferWidth bufferHeight))
                  (length (image_ (Buffer_new bufferWidth bufferHeight))) =
  iteration_calls window clearColor bufferWidth bufferHeight
                  (Z.to_nat (bufferWidth * bufferHeight)).
Proof.
  rewrite Buffer_new_image, repeat_length.
  change (Int.size_mul bufferWidth bufferHeight) with (bufferWidth * bufferHeight).
  reflexivity.
Qed.

(** With the context acquired and the program linked, a run in which the
    window is reported closed at the [n]-th test: what was called before the
    loop, [n] turns of the loop, the last test, the teardown; [main] returns
    0. *)
Lemma main_closes (fuel : nat) (env : Env) (window : Z) (n : nat) :
  env_glfwInit env = true -> env_window env = Some window -> env_glewInit env = true ->
  env_programLog env = EmptyString ->
  closes_at env n -> (n < fuel)%nat ->
  main fuel env =
  (fst (main 0 env)
   ++ concat (repeat (iteration_calls window (RGBToUint32 0 128 0) bufferWidth bufferHeight
                                      (Z.to_nat (bufferWidth * bufferHeight))) n)
   ++ [glfwWindowShouldClose window true; glfwDestroyWindow window; glfwTerminate],
   Return 0).
Proof.
  intros Hinit Hwin Hglew Hlog [Hclose Hopen] Hfuel.
  rewrite !(main_with_context _ env window Hinit Hwin Hglew). cbv zeta.
  rewrite (link_check_passes env Hlog).
  destruct (frame_loop_closes env window (RGBToUint32 0 128 0) n fuel 0
              (Buffer_new bufferWidth bufferHeight) Hfuel Hclose Hopen) as [b' Hb'].
  rewrite bind_eq, Hb', Buffer_new_iteration_calls.
  cbn [frame_loop pending bind fst snd].
  unfold teardown. rewrite ?bind_call. cbn [fst snd exit].
  rewrite ?app_nil_r. rewrite <- ?app_assoc. reflexivity.
Qed.

(** The same run as far as the fuel goes when the window is not reported
    closed: the loop is still turning. *)
Lemma main_pending (fuel : nat) (env : Env) (window : Z) :
  env_glfwInit env = true -> env_window env = Some window -> env_glewInit env = true ->
  env_programLog env = EmptyString ->
  (forall i : nat, (i < fuel)%nat -> env_shouldClose env i = false) ->
  main fuel env =
  (fst (main 0 env)
   ++ concat (repeat (iteration_calls window (RGBToUint32 0 128 0) bufferWidth bufferHeight
                                      (Z.to_nat (bufferWidth * bufferHeight))) fuel),
   Pending).
Proof.
  intros Hinit Hwin Hglew Hlog Hopen.
  rewrite !(main_with_context _ env window Hinit Hwin Hglew). cbv zeta.
  rewrite (link_check_passes env Hlog).
  rewrite (frame_loop_pending env window (RGBToUint32 0 128 0) fuel 0
             (Buffer_new bufferWidth bufferHeight) Hopen).
  rewrite Buffer_new_iteration_calls.
  cbn [frame_loop pending bind fst snd].
  rewrite ?app_nil_r. rewrite <- ?app_assoc. reflexivity.
Qed.

(** How a run of [main] stands: returned -1 on one of the four failures,
    returned 0 after the window was reported closed, or still in the
    loop. *)
Lemma main_result (fuel : nat) (env : Env) :
  (fatal env /\ snd (main fuel env) = Return (-1)) \/
  (~ fatal env /\
   ((exists n : nat, (n < fuel)%nat /\ closes_at env n /\ snd (main fuel env) = Return 0) \/
    ((forall i : nat, (i < fuel)%nat -> env_shouldClose env i = false) /\
     snd (main fuel env) = Pending))).
Proof.
  destruct (env_glfwInit env) eqn:Hinit.
  2:{ left. split; [left; exact Hinit |].
      rewrite (main_without_context fuel env (-1)); [reflexivity |].
      rewrite acquire_context_result, Hinit. reflexivity. }
  destruct (env_window env) as [window |] eqn:Hwin.
  2:{ left. split; [right; left; split; [exact Hinit | exact Hwin] |].
      rewrite (main_without_context fuel env (-1)); [reflexivity |].
      rewrite acquire_context_result, Hinit, Hwin. reflexivity. }
  destruct (env_glewInit env) eqn:Hglew.
  2:{ left. split.
      - right; right; left. rewrite Hwin.
        split; [exact Hinit | split; [discriminate | exact Hglew]].
      - rewrite (main_without_context fuel env (-1)); [reflexivity |].
        rewrite acquire_context_result, Hinit, Hwin, Hglew. reflexivity. }
  destruct (string_dec (env_programLog env) EmptyString) as [Hlog | Hlog].
  - right. split.
    + unfold fatal, link_fails. rewrite Hwin.
      intros [H | [[_ H] | [(_ & _ & H) | (_ & _ & _ & H)]]];
        try discriminate; try congruence.
    + destruct (frame_loop_cases env fuel) as [Hopen | (n & Hn & Hc)].
      * right. split; [exact Hopen |].
        rewrite (main_pending fuel env window); auto.
      * left. exists n. repeat split; try apply Hc; [exact Hn |].
        rewrite (main_closes fuel env window n); auto.
  - left. split.
    + right; right; right. rewrite Hwin.
      split; [exact Hinit | split; [discriminate | split; [exact Hglew | exact Hlog]]].
    + rewrite (main_with_context fuel env window Hinit Hwin Hglew). cbv zeta.
      rewrite (link_check_fails env Hlog). reflexivity.
Qed.

Lemma closes_at_open (env : Env) (fuel n : nat) :
  closes_at env n -> (n < fuel)%nat ->
  (forall i : nat, (i < fuel)%nat -> env_shouldClose env i = false) -> False.
Proof.
  intros [Hclose _] Hn Hopen. rewrite (Hopen n Hn) in Hclose. discriminate.
Qed.

(** ** The sample runs *)

Lemma sample_env_closes (init : bool) (window : option Z) (glew : bool)
    (errors : list GLerror) (vertexLog fragmentLog programLog : string) (frames : nat) :
  closes_at (sample_env init window glew errors vertexLog fragmentLog programLog frames)
            frames.
Proof.
  split; cbn [sample_env env_shouldClose].
  - apply Nat.leb_refl.
  - intros k Hk. apply Nat.leb_gt. exact Hk.
Qed.

Lemma working_env_not_fatal (frames : nat) : ~ fatal (working_env frames).
Proof.
  unfold fatal, link_fails, working_env, sample_env.
  cbn [env_glfwInit env_window env_glewInit env_programLog].
  intros [H | [[_ H] | [(_ & _ & H) | (_ & _ & _ & H)]]];
    try discriminate; now elim H.
Qed.

(** ** Exit codes *)

(** C6.  [main] returns -1 on each of the four failures (the windowing
    library not initialised, no window, the loader not initialised, the
    program not linked) and 0 when, none of them having occurred, the
    window is reported closed, which any fuel beyond that test shows; while
    the window is not reported closed it has not returned.  Conversely a
    return value is -1 only after one of the four failures and 0 only after
    the window was reported closed with none of them: there is no other
    return. *)
Theorem main_exit_codes (fuel : nat) (env : Env) :
  (fatal env -> exit_code (main fuel env) = Some (-1)) /\
  (~ fatal env -> (exists n : nat, (n < fuel)%nat /\ closes_at env n) ->
   exit_code (main fuel env) = Some 0) /\
  (~ fatal env -> (forall i : nat, (i < fuel)%nat -> env_shouldClose env i = false) ->
   exit_code (main fuel env) = None) /\
  (forall code : Z, exit_code (main fuel env) = Some code ->
     (code = -1 /\ fatal env) \/
     (code = 0 /\ ~ fatal env /\ exists n : nat, (n < fuel)%nat /\ closes_at env n)).
Proof.
  unfold exit_code.
  destruct (main_result fuel env)
    as [[Hf Hr] | [Hnf [(n & Hn & Hc & Hr) | [Hopen Hr]]]]; rewrite Hr.
  - repeat split; try reflexivity; try (intro; contradiction).
    intros code [= <-]. left. split; [reflexivity | exact Hf].
  - repeat split; try reflexivity; try (intro; contradiction).
    + intros _ Hopen. elim (closes_at_open env fuel n Hc Hn Hopen).
    + intros code [= <-]. right. repeat split; [exact Hnf |].
      exists n. split; assumption.
  - repeat split; try reflexivity; try (intro; contradiction).
    + intros _ (n & Hn & Hc). elim (closes_at_open env fuel n Hc Hn Hopen).
    + intros code [=].
Qed.

Lemma main_exit_codes_witness :
  exit_code (main 3 (working_env 2)) = Some 0 /\
  exit_code (main 3 (sample_env false None false [] "" "" "" 0)) = Some (-1) /\
  exit_code (main 3 (sample_env true None false [] "" "" "" 0)) = Some (-1) /\
  exit_code (main 3 (sample_env true (Some 7) false [] "" "" "" 0)) = Some (-1) /\
  exit_code (main 3 (sample_env true (Some 7) true [] "" "" "unresolved symbol" 0))
    = Some (-1).
Proof.
  split.
  { apply (proj1 (proj2 (main_exit_codes 3 (working_env 2)))).
    - apply working_env_not_fatal.
    - exists 2%nat. split; [lia | apply sample_env_closes]. }
  split.
  { apply (proj1 (main_exit_codes 3 _)). left. reflexivity. }
  split.
  { apply (proj1 (main_exit_codes 3 _)). right; left. split; reflexivity. }
  split.
  { apply (proj1 (main_exit_codes 3 _)). right; right; left. cbn.
    repeat split; discriminate. }
  { apply (proj1 (main_exit_codes 3 _)). right; right; right. unfold link_fails. cbn.
    repeat split; discriminate. }
Defined.

(** ** Calls that do not occur in a phase *)

(** Proves [Forall (fun e => f e = false) calls] for a recogniser [f] of
    one kind of call and the calls of a phase of [main], by going through
    them. *)
Ltac calls_forall :=
  repeat first
    [ apply Forall_nil
    | apply Forall_cons; [reflexivity |]
    | apply Forall_app; split
    | match goal with
      | |- Forall _ (if ?c then _ else _) => destruct c
      | |- Forall _ (fst (if ?c then _ else _)) => destruct c; cbn [fst]
      | |- Forall _ (fst (acquire_context ?env)) =>
          unfold acquire_context;
          destruct (env_glfwInit env), (env_window env), (env_glewInit env); cbn
      | |- Forall _ (fst (report_version _)) => rewrite report_version_calls; cbn [fst]
      | |- Forall _ (fst (GLDebug _ _ _)) => rewrite GLDebug_calls; cbn [fst]
      | |- Forall _ (flat_map _ _) => apply Forall_flat_map, Forall_forall; intros ? _
      | |- Forall _ (fst (build_program _)) => rewrite build_program_calls; cbv zeta
      | |- Forall _ (fst (build_stage _ _ _ _ _)) => rewrite build_stage_calls; cbn [fst]
      | |- Forall _ (fst (ValidateShader _ _ _)) => rewrite ValidateShader_calls; cbn [fst]
      | |- Forall _ (fst (ValidateProgram _ _)) => rewrite ValidateProgram_calls
      | |- Forall _ (fst (setup_texture _ _ _ _)) =>
          unfold setup_texture; rewrite !bind_call; cbn [fst snd call]
      end ].

Lemma acquire_context_no_query (env : Env) :
  Forall (fun e => is_error_query e = false) (fst (acquire_context env)).
Proof. calls_forall. Qed.

Lemma build_program_no_query (env : Env) :
  Forall (fun e => is_error_query e = false) (fst (build_program env)).
Proof. calls_forall. Qed.

Lemma setup_texture_no_query (env : Env) (buffer : Buffer) (vao shaderId : Z) :
  Forall (fun e => is_error_query e = false) (fst (setup_texture env buffer vao shaderId)).
Proof. calls_forall. Qed.

Lemma frame_loop_no_query (env : Env) (window clearColor : Z) (fuel : nat) :
  forall (k : nat) (b : Buffer),
    Forall (fun e => is_error_query e = false)
           (fst (frame_loop fuel env window clearColor k b)).
Proof.
  induction fuel as [| fuel IH]; intros k b; cbn [frame_loop]; [constructor |].
  rewrite bind_call. cbn [fst].
  constructor; [reflexivity |].
  destruct (env_shouldClose env k); [constructor |].
  rewrite bind_eq, frame_calls. cbn [fst snd].
  apply Forall_app. split; [| apply IH].
  unfold iteration_calls. cbn [tl]. calls_forall.
Qed.

Lemma shown_no_query (env : Env) (window clearColor : Z) (fuel : nat) (b : Buffer) :
  Forall (fun e => is_error_query e = false)
         (fst (_ <- frame_loop fuel env window clearColor 0 b ;; teardown window)).
Proof.
  rewrite bind_eq.
  pose proof (frame_loop_no_query env window clearColor fuel 0 b) as Hloop.
  destruct (snd (frame_loop fuel env window clearColor 0 b)); cbn [fst]; try exact Hloop.
  apply Forall_app. split; [exact Hloop |].
  unfold teardown. rewrite !bind_call. cbn [fst exit]. calls_forall.
Qed.

Lemma acquire_context_no_use (env : Env) :
  Forall (fun e => is_use_program e = false) (fst (acquire_context env)).
Proof. calls_forall. Qed.

Lemma report_version_no_use (env : Env) :
  Forall (fun e => is_use_program e = false) (fst (report_version env)).
Proof. calls_forall. Qed.

Lemma build_program_no_use (env : Env) :
  Forall (fun e => is_use_program e = false) (fst (build_program env)).
Proof. calls_forall. Qed.

Lemma setup_no_loop_test (env : Env) :
  Forall (fun e => is_loop_test e = false) (fst (main 0 env)).
Proof.
  destruct (snd (acquire_context env)) as [window | code |] eqn:Hctx.
  - rewrite acquire_context_result in Hctx.
    destruct (env_glfwInit env) eqn:Hinit; [| discriminate].
    destruct (env_window env) as [w |] eqn:Hwin; [| discriminate].
    destruct (env_glewInit env) eqn:Hglew; [| discriminate].
    rewrite (main_with_context 0 env w Hinit Hwin Hglew). cbv zeta.
    generalize (Buffer_new bufferWidth bufferHeight). intro buffer.
    destruct (0 <? fst (read_info_log BUFFER_SIZE (env_programLog env)));
      cbn [fst frame_loop pending bind]; calls_forall.
  - rewrite (main_without_context 0 env code Hctx). cbn [fst]. calls_forall.
  - rewrite acquire_context_result in Hctx.
    destruct (env_glfwInit env), (env_window env), (env_glewInit env); discriminate.
Qed.

(** ** The frame loop *)

(** C7.  With the context acquired and the program linked, every turn of
    the loop makes these calls and no other, in this order: the test of
    [glfwWindowShouldClose] (answered no), the clear of the buffer to the
    colour packed from (0, 128, 0), one [glTexSubImage2D] at offset (0, 0)
    of extent 224 by 256 carrying all 224 * 256 cells, each the clear
    colour, one [glDrawArrays] of 3 vertices as [GL_TRIANGLES],
    [glfwSwapBuffers], [glfwPollEvents].  A window reported closed at the
    [n]-th test gives exactly [n] such turns between the calls of the setup
    and the teardown; a window not reported closed gives as many turns as
    the fuel allows, and the loop goes on. *)
Theorem frame_loop_steps (fuel : nat) (env : Env) (window : Z) :
  env_glfwInit env = true -> env_window env = Some window -> env_glewInit env = true ->
  env_programLog env = EmptyString ->
  let clearColor := RGBToUint32 0 128 0 in
  let turn :=
    [glfwWindowShouldClose window false;
     Buffer_ClearImage clearColor;
     glTexSubImage2D GL_TEXTURE_2D 0 0 0 224 256 GL_RGBA GL_UNSIGNED_INT_8_8_8_8
                     (repeat clearColor (Z.to_nat (224 * 256)));
     glDrawArrays GL_TRIANGLES 0 3;
     glfwSwapBuffers window;
     glfwPollEvents] in
  (forall n : nat, closes_at env n -> (n < fuel)%nat ->
     trace (main fuel env) =
     trace (main 0 env) ++ concat (repeat turn n)
     ++ [glfwWindowShouldClose window true; glfwDestroyWindow window; glfwTerminate]) /\
  ((forall i : nat, (i < fuel)%nat -> env_shouldClose env i = false) ->
     trace (main fuel env) = trace (main 0 env) ++ concat (repeat turn fuel) /\
     exit_code (main fuel env) = None) /\
  Forall (fun e => is_loop_test e = false) (trace (main 0 env)).
Proof.
  intros Hinit Hwin Hglew Hlog clearColor turn.
  change turn with (iteration_calls window clearColor bufferWidth bufferHeight
                                    (Z.to_nat (bufferWidth * bufferHeight))).
  unfold trace, exit_code.
  split; [| split].
  - intros n Hc Hn.
    rewrite (main_closes fuel env window n Hinit Hwin Hglew Hlog Hc Hn). reflexivity.
  - intro Hopen.
    rewrite (main_pending fuel env window Hinit Hwin Hglew Hlog Hopen).
    split; reflexivity.
  - apply setup_no_loop_test.
Qed.

Lemma frame_loop_steps_witness :
  trace (main 3 (working_env 2)) =
  trace (main 0 (working_env 2))
  ++ concat (repeat [glfwWindowShouldClose 7 false;
                     Buffer_ClearImage (RGBToUint32 0 128 0);
                     glTexSubImage2D GL_TEXTURE_2D 0 0 0 224 256 GL_RGBA
                                     GL_UNSIGNED_INT_8_8_8_8
                                     (repeat (RGBToUint32 0 128 0) (Z.to_nat (224 * 256)));
                     glDrawArrays GL_TRIANGLES 0 3;
                     glfwSwapBuffers 7;
                     glfwPollEvents] 2)
  ++ [glfwWindowShouldClose 7 true; glfwDestroyWindow 7; glfwTerminate].
Proof.
  pose proof (frame_loop_steps 3 (working_env 2) 7 eq_refl eq_refl eq_refl eq_refl) as H.
  cbv zeta in H. destruct H as (Hcloses & _ & _).
  apply (Hcloses 2%nat); [apply sample_env_closes | lia].
Defined.

(** ** Shader diagnostics *)

Lemma build_calls_in_main (fuel : nat) (env : Env) (window : Z) (e : Event) :
  env_glfwInit env = true -> env_window env = Some window -> env_glewInit env = true ->
  In e (fst (build_program env)) -> In e (fst (main fuel env)).
Proof.
  intros Hinit Hwin Hglew He.
  rewrite (main_with_context fuel env window Hinit Hwin Hglew). cbv zeta.
  destruct (0 <? fst (read_info_log BUFFER_SIZE (env_programLog env))); cbn [fst];
    rewrite <- ?app_assoc; apply in_or_app; right; apply in_or_app; right;
    [exact He | apply in_or_app; left; exact He].
Qed.

Lemma stage_calls_in_build (env : Env) (e : Event) :
  In e (fst (build_stage GL_VERTEX_SHADER (env_vertex env) vertexShader
                         (env_vertexLog env) (env_program env))) \/
  In e (fst (build_stage GL_FRAGMENT_SHADER (env_fragment env) fragmentShader
                         (env_fragmentLog env) (env_program env))) \/
  e = glLinkProgram (env_program env) ->
  In e (fst (build_program env)).
Proof.
  intro He. rewrite build_program_calls. cbv zeta.
  assert (Hbuilt :
    In e (glGenVertexArrays 1 (env_vao env)
          :: glCreateProgram (env_program env)
          :: fst (build_stage GL_VERTEX_SHADER (env_vertex env) vertexShader
                              (env_vertexLog env) (env_program env))
          ++ fst (build_stage GL_FRAGMENT_SHADER (env_fragment env) fragmentShader
                              (env_fragmentLog env) (env_program env))
          ++ glLinkProgram (env_program env)
          :: fst (ValidateProgram (env_program env) (env_programLog env)))).
  { right. right. apply in_or_app.
    destruct He as [He | [He | ->]]; [left; exact He | right ..].
    - apply in_or_app. left. exact He.
    - apply in_or_app. right. left. reflexivity. }
  destruct (0 <? fst (read_info_log BUFFER_SIZE (env_programLog env))); cbn [fst];
    [apply in_or_app; left |]; exact Hbuilt.
Qed.

(** A stage whose info log is not empty has its diagnostic written to the
    error stream, between the compilation and the attachment. *)
Lemma build_stage_diagnostic (type : GLconst) (shader : Z) (source infoLog : string)
    (shaderId : Z) :
  infoLog <> EmptyString ->
  In (cerr ("Shader " ++ dec shader ++ "(" ++ source ++ ") compile error: "
              ++ snd (read_info_log BUFFER_SIZE infoLog) ++ endl)%string)
     (fst (build_stage type shader source infoLog shaderId)).
Proof.
  intro Hlog. rewrite build_stage_calls. cbn [fst].
  right. right. right. apply in_or_app. left.
  rewrite ValidateShader_calls. cbn [fst].
  rewrite (proj2 (read_info_log_length infoLog) Hlog).
  right. left. reflexivity.
Qed.

(** The calls of [main] around the build of the program, with the context
    acquired: the diagnostics of the two stages, the link, and what follows
    the link check. *)
Lemma stage_and_link_calls (fuel : nat) (env : Env) (window : Z) :
  env_glfwInit env = true -> env_window env = Some window -> env_glewInit env = true ->
  let calls := trace (main fuel env) in
  let linked := snd (ValidateProgram (env_program env) (env_programLog env)) in
  (env_vertexLog env <> EmptyString ->
     snd (read_info_log BUFFER_SIZE (env_vertexLog env)) <> EmptyString /\
     In (cerr ("Shader " ++ dec (env_vertex env) ++ "(" ++ vertexShader
                 ++ ") compile error: "
                 ++ snd (read_info_log BUFFER_SIZE (env_vertexLog env)) ++ endl)%string)
        calls) /\
  (env_fragmentLog env <> EmptyString ->
     snd (read_info_log BUFFER_SIZE (env_fragmentLog env)) <> EmptyString /\
     In (cerr ("Shader " ++ dec (env_fragment env) ++ "(" ++ fragmentShader
                 ++ ") compile error: "
                 ++ snd (read_info_log BUFFER_SIZE (env_fragmentLog env)) ++ endl)%string)
        calls) /\
  In (glLinkProgram (env_program env)) calls /\
  (linked = Next true <-> env_programLog env = EmptyString) /\
  (In (glUseProgram (env_program env)) calls <-> linked = Next true) /\
  (linked <> Next true ->
     exit_code (main fuel env) = Some (-1) /\
     exists before : list Event,
       calls = before ++ [cerr ("Error while validating program" ++ endl)%string;
                          glfwTerminate;
                          glDeleteVertexArrays 1 (env_vao env)]).
Proof.
  intros Hinit Hwin Hglew calls linked. unfold calls, linked, trace, exit_code.
  split; [| split; [| split; [| split; [| split]]]].
  - intro Hlog. split; [apply read_info_log_buffer; exact Hlog |].
    apply (build_calls_in_main fuel env window); try assumption.
    apply stage_calls_in_build. left. apply build_stage_diagnostic. exact Hlog.
  - intro Hlog. split; [apply read_info_log_buffer; exact Hlog |].
    apply (build_calls_in_main fuel env window); try assumption.
    apply stage_calls_in_build. right. left. apply build_stage_diagnostic. exact Hlog.
  - apply (build_calls_in_main fuel env window); try assumption.
    apply stage_calls_in_build. right. right. reflexivity.
  - apply ValidateProgram_result.
  - rewrite ValidateProgram_result.
    rewrite (main_with_context fuel env window Hinit Hwin Hglew). cbv zeta.
    generalize (Buffer_new bufferWidth bufferHeight). intro buffer.
    destruct (string_dec (env_programLog env) EmptyString) as [Hlog | Hlog].
    + rewrite (link_check_passes env Hlog). cbn [fst].
      split; [intros _; exact Hlog | intros _].
      apply in_or_app. right. apply in_or_app. left.
      unfold setup_texture. rewrite !bind_call. cbn [fst]. left. reflexivity.
    + rewrite (link_check_fails env Hlog). cbn [fst].
      split; [intro Hin | intro H; now elim Hlog].
      assert (Hnone : Forall (fun e => is_use_program e = false)
                             (fst (acquire_context env) ++ fst (report_version env)
                              ++ fst (build_program env))).
      { apply Forall_app. split; [apply acquire_context_no_use |].
        apply Forall_app. split; [apply report_version_no_use | apply build_program_no_use]. }
      rewrite Forall_forall in Hnone. apply Hnone in Hin. discriminate.
  - rewrite ValidateProgram_result. intro Hlog.
    rewrite (main_with_context fuel env window Hinit Hwin Hglew). cbv zeta.
    rewrite (link_check_fails env Hlog). cbn [fst snd].
    split; [reflexivity |].
    rewrite build_program_calls. cbv zeta.
    rewrite (link_check_fails env Hlog). cbn [fst].
    eexists. rewrite !app_assoc. reflexivity.
Qed.

(** ** Error queries *)

(** C8, as the code has it.  With the context acquired, the error state is
    queried at one place, after the two version numbers have been read:
    [glGetError] is called until it reports no error, each pending error is
    written to the error stream with its name, the file and line 114, and
    the run goes on with the version line.  No call before that place and
    no call after it, in the rest of the setup, in the loop or in the
    teardown, is an error query. *)
Theorem error_query_once (fuel : nat) (env : Env) (window : Z) :
  env_glfwInit env = true -> env_window env = Some window -> env_glewInit env = true ->
  exists after : list Event,
    trace (main fuel env) =
    trace (acquire_context env)
    ++ [glGetIntegerv GL_MAJOR_VERSION (env_major env);
        glGetIntegerv GL_MINOR_VERSION (env_minor env)]
    ++ flat_map (fun errorNo =>
                   [glGetError (Some errorNo);
                    cerr (errorString errorNo ++ " - " ++ FILE_ ++ " : " ++ "114"
                            ++ endl)%string])
                (env_errors env)
    ++ [glGetError None]
    ++ cout ("Using OpenGL: " ++ dec (env_major env) ++ "." ++ dec (env_minor env)
               ++ endl)%string
    :: after /\
    Forall (fun e => is_error_query e = false) (trace (acquire_context env)) /\
    Forall (fun e => is_error_query e = false) after.
Proof.
  intros Hinit Hwin Hglew. unfold trace.
  rewrite (main_with_context fuel env window Hinit Hwin Hglew). cbv zeta.
  generalize (Buffer_new bufferWidth bufferHeight). intro buffer.
  rewrite report_version_calls, GLDebug_calls. cbn [fst].
  destruct (0 <? fst (read_info_log BUFFER_SIZE (env_programLog env))); cbn [fst].
  - exists ([glGetString GL_RENDERER (env_renderer env);
             cout ("Renderer used: " ++ env_renderer env ++ endl)%string;
             glGetString GL_SHADING_LANGUAGE_VERSION (env_shading env);
             cout ("Shading Language: " ++ env_shading env ++ endl)%string]
            ++ fst (build_program env)).
    split; [flatten_calls; reflexivity |].
    split; [apply acquire_context_no_query |].
    apply Forall_app. split; [calls_forall | apply build_program_no_query].
  - exists ([glGetString GL_RENDERER (env_renderer env);
             cout ("Renderer used: " ++ env_renderer env ++ endl)%string;
             glGetString GL_SHADING_LANGUAGE_VERSION (env_shading env);
             cout ("Shading Language: " ++ env_shading env ++ endl)%string]
            ++ fst (build_program env)
            ++ fst (setup_texture env buffer (env_vao env) (env_program env))
            ++ fst (_ <- frame_loop fuel env window (RGBToUint32 0 128 0) 0 buffer ;;
                    teardown window)).
    split; [flatten_calls; reflexivity |].
    split; [apply acquire_context_no_query |].
    apply Forall_app. split; [calls_forall |].
    apply Forall_app. split; [apply build_program_no_query |].
    apply Forall_app. split; [apply setup_texture_no_query | apply shown_no_query].
Qed.

Lemma error_query_once_witness :
  exists after : list Event,
    trace (main 2 (sample_env true (Some 7) true [GL_INVALID_ENUM; GL_OTHER_ERROR]
                              "" "" "" 1)) =
    trace (acquire_context (working_env 1))
    ++ [glGetIntegerv GL_MAJOR_VERSION 3; glGetIntegerv GL_MINOR_VERSION 3;
        glGetError (Some GL_INVALID_ENUM);
        cerr ("GL_INVALID_ENUM - main.cpp : 114" ++ endl)%string;
        glGetError (Some GL_OTHER_ERROR);
        cerr ("UNKNOWN_ERROR - main.cpp : 114" ++ endl)%string;
        glGetError None;
        cout ("Using OpenGL: 3.3" ++ endl)%string]
    ++ after /\
    Forall (fun e => is_error_query e = false) after.
Proof.
  destruct (error_query_once 2
              (sample_env true (Some 7) true [GL_INVALID_ENUM; GL_OTHER_ERROR] "" "" "" 1)
              7 eq_refl eq_refl eq_refl) as (after & Hcalls & _ & Hafter).
  exists after. split; [exact Hcalls | exact Hafter].
Defined.

(** C8 as stated fails in the loop: in a run of one frame the draw call is
    followed by the swap, the poll, the last test of the loop and the
    teardown, and none of them queries the error state. *)
Lemma draw_call_unchecked :
  ~ every_gl_call_checked (trace (main 2 (working_env 1))).
Proof.
  intro H. unfold every_gl_call_checked, trace in H.
  rewrite (main_closes 2 (working_env 1) 7 1 eq_refl eq_refl eq_refl eq_refl
             (sample_env_closes _ _ _ _ _ _ _ 1) (Nat.lt_succ_diag_r 1)) in H.
  specialize (H (fst (main 0 (working_env 1))
                 ++ firstn 3 (iteration_calls 7 (RGBToUint32 0 128 0) bufferWidth
                                bufferHeight (Z.to_nat (bufferWidth * bufferHeight))))
                (glDrawArrays GL_TRIANGLES 0 3)
                [glfwSwapBuffers 7; glfwPollEvents; glfwWindowShouldClose 7 true;
                 glfwDestroyWindow 7; glfwTerminate]).
  assert (Hq : Exists (fun q => is_error_query q = true)
                      [glfwSwapBuffers 7; glfwPollEvents; glfwWindowShouldClose 7 true;
                       glfwDestroyWindow 7; glfwTerminate]).
  { apply H; [| reflexivity]. rewrite <- app_assoc. reflexivity. }
  apply Exists_exists in Hq. destruct Hq as (q & Hin & Hq).
  cbn [In] in Hin.
  destruct Hin as [<- | [<- | [<- | [<- | [<- | []]]]]]; discriminate Hq.
Qed.

(** ** Teardown *)

Lemma untouched_context (t : list Event) :
  Forall (fun e => touches_context e = false) t ->
  filter is_context_handle (acquired t) = [] /\
  filter is_context_handle (released t) = [].
Proof.
  unfold acquired, released.
  induction 1 as [| e t He _ [IHa IHr]]; [split; reflexivity |].
  cbn [flat_map]. rewrite !filter_app, IHa, IHr, !app_nil_r.
  unfold touches_context in He. apply orb_false_elim in He. destruct He as [Ha Hr].
  split.
  - induction (acquires e) as [| h hs IH]; [reflexivity |].
    cbn [existsb] in Ha. apply orb_false_elim in Ha. destruct Ha as [Hh Hhs].
    cbn [filter]. rewrite Hh. apply IH. exact Hhs.
  - induction (releases e) as [| h hs IH]; [reflexivity |].
    cbn [existsb] in Hr. apply orb_false_elim in Hr. destruct Hr as [Hh Hhs].
    cbn [filter]. rewrite Hh. apply IH. exact Hhs.
Qed.

Lemma report_version_untouched (env : Env) :
  Forall (fun e => touches_context e = false) (fst (report_version env)).
Proof. calls_forall. Qed.

Lemma build_program_untouched (env : Env) :
  env_programLog env = EmptyString ->
  Forall (fun e => touches_context e = false) (fst (build_program env)).
Proof.
  intro Hlog. rewrite build_program_calls. cbv zeta.
  rewrite ValidateProgram_calls, (link_check_passes env Hlog). cbn [fst].
  calls_forall.
Qed.

Lemma setup_texture_untouched (env : Env) (buffer : Buffer) (vao shaderId : Z) :
  Forall (fun e => touches_context e = false) (fst (setup_texture env buffer vao shaderId)).
Proof. calls_forall. Qed.

Lemma turns_untouched (window clearColor width height : Z) (cells n : nat) :
  Forall (fun e => touches_context e = false)
         (concat (repeat (iteration_calls window clearColor width height cells) n)).
Proof.
  induction n as [| n IH]; cbn [repeat concat]; [constructor |].
  apply Forall_app. split; [| exact IH].
  unfold iteration_calls. calls_forall.
Qed.

(** No call of the program releases a program object or a texture. *)
Lemma released_handles (t : list Event) (h : Handle) :
  In h (released t) ->
  match h with
  | H_program _ | H_texture _ => False
  | _ => True
  end.
Proof.
  unfold released. rewrite in_flat_map. intros (e & _ & He).
  destruct e; cbn [releases In] in He; try contradiction;
    destruct He as [<- | []]; exact I.
Qed.

(** C9, as the code has it.  On the normal exit [main] returns 0 after
    two last calls, [glfwDestroyWindow] on the window and then
    [glfwTerminate]: of the library and the window, acquired in that order,
    the window is released first and the library last, and neither is
    released earlier.  The program object and the texture, acquired during
    the setup, are released by no call. *)
Theorem teardown_releases_context (fuel : nat) (env : Env) (window : Z) (n : nat) :
  env_glfwInit env = true -> env_window env = Some window -> env_glewInit env = true ->
  env_programLog env = EmptyString ->
  closes_at env n -> (n < fuel)%nat ->
  let calls := trace (main fuel env) in
  exit_code (main fuel env) = Some 0 /\
  (exists body : list Event,
     calls = body ++ [glfwDestroyWindow window; glfwTerminate]) /\
  filter is_context_handle (acquired calls) = [H_library; H_window window] /\
  filter is_context_handle (released calls) = [H_window window; H_library] /\
  In (H_program (env_program env)) (acquired calls) /\
  In (H_texture (env_texture env)) (acquired calls) /\
  ~ In (H_program (env_program env)) (released calls) /\
  ~ In (H_texture (env_texture env)) (released calls).
Proof.
  intros Hinit Hwin Hglew Hlog Hc Hn calls. unfold calls, trace, exit_code.
  rewrite (main_closes fuel env window n Hinit Hwin Hglew Hlog Hc Hn). cbn [fst snd].
  rewrite (main_with_context 0 env window Hinit Hwin Hglew). cbv zeta.
  rewrite (link_check_passes env Hlog).
  generalize (Buffer_new bufferWidth bufferHeight). intro buffer.
  cbn [frame_loop pending bind fst]. rewrite app_nil_r.
  split; [reflexivity |].
  split.
  { eexists. rewrite !app_assoc.
    change [glfwWindowShouldClose window true; glfwDestroyWindow window; glfwTerminate]
      with ([glfwWindowShouldClose window true]
            ++ [glfwDestroyWindow window; glfwTerminate]).
    rewrite app_assoc. reflexivity. }
  destruct (untouched_context _ (report_version_untouched env)) as [Hra Hrr].
  destruct (untouched_context _ (build_program_untouched env Hlog)) as [Hba Hbr].
  destruct (untouched_context _ (setup_texture_untouched env buffer (env_vao env)
                                   (env_program env))) as [Hta Htr].
  destruct (untouched_context _ (turns_untouched window (RGBToUint32 0 128 0) bufferWidth
                                   bufferHeight (Z.to_nat (bufferWidth * bufferHeight)) n))
    as [Hla Hlr].
  rewrite (acquire_context_calls env window Hinit Hwin Hglew). cbn [fst].
  unfold acquired, released in Hra, Hrr, Hba, Hbr, Hta, Htr, Hla, Hlr.
  split.
  { unfold acquired. rewrite !flat_map_app, !filter_app, Hra, Hba, Hta, Hla.
    reflexivity. }
  split.
  { unfold released. rewrite !flat_map_app, !filter_app, Hrr, Hbr, Htr, Hlr.
    reflexivity. }
  split.
  { unfold acquired. rewrite !flat_map_app.
    apply in_or_app. left. apply in_or_app. left.
    apply in_or_app. right. apply in_or_app. right.
    apply in_flat_map. exists (glCreateProgram (env_program env)).
    split; [| left; reflexivity].
    rewrite build_program_calls. cbv zeta.
    rewrite (link_check_passes env Hlog). cbn [fst]. right. left. reflexivity. }
  split.
  { unfold acquired. rewrite !flat_map_app.
    apply in_or_app. left. apply in_or_app. right.
    apply in_flat_map. exists (glGenTextures 1 (env_texture env)).
    split; [| left; reflexivity].
    unfold setup_texture. rewrite !bind_call. cbn [fst]. right. left. reflexivity. }
  split; intro Hin; exact (released_handles _ _ Hin).
Qed.

Lemma teardown_releases_context_witness :
  exit_code (main 2 (working_env 1)) = Some 0 /\
  filter is_context_handle (released (trace (main 2 (working_env 1))))
    = [H_window 7; H_library].
Proof.
  pose proof (teardown_releases_context 2 (working_env 1) 7 1 eq_refl eq_refl eq_refl
                eq_refl (sample_env_closes _ _ _ _ _ _ _ 1) (Nat.lt_succ_diag_r 1)) as H.
  cbv zeta in H. destruct H as (Hexit & _ & _ & Hreleased & _).
  split; [exact Hexit | exact Hreleased].
Defined.

(** C9 as stated fails on the texture: in a run of one frame the texture
    handed out by [glGenTextures] is among the handles acquired and is not
    among the handles released. *)
Lemma texture_never_released :
  ~ every_handle_released (trace (main 2 (working_env 1))).
Proof.
  intro H. specialize (H (H_texture 1)).
  assert (Hacquired : In (H_texture 1) (acquired (trace (main 2 (working_env 1))))).
  { unfold acquired. apply in_flat_map. exists (glGenTextures 1 1).
    split; [| left; reflexivity].
    unfold trace.
    rewrite (main_with_context 2 (working_env 1) 7 eq_refl eq_refl eq_refl). cbv zeta.
    rewrite (link_check_passes (working_env 1) eq_refl). cbn [fst].
    apply in_or_app. right. apply in_or_app. left.
    unfold setup_texture. rewrite !bind_call. cbn [fst]. right. left. reflexivity. }
  exact (released_handles _ _ (H Hacquired)).
Qed.

(** * Further properties of the code *)

(** ** The buffer *)

Lemma assign_each_over (c1 c2 : Z) (image : list Z) :
  assign_each c2 (assign_each c1 image) = assign_each c2 image.
Proof.
  induction image as [| x rest IH]; simpl; [reflexivity | now rewrite IH].
Qed.

Lemma ClearImage_over (c1 c2 : Z) (b : Buffer) :
  ClearImage c2 (ClearImage c1 b) = ClearImage c2 b.
Proof.
  unfold ClearImage. cbn [width_ height_ image_]. now rewrite assign_each_over.
Qed.

Lemma ClearImage_after_op (color : Z) (b : Buffer) (op : BufferOp) :
  ClearImage color (fst (apply_op b op)) = ClearImage color b.
Proof. destruct op; cbn [apply_op fst]; [apply ClearImage_over | reflexivity ..]. Qed.

(** X1.  Clears compose by the last one winning: after any sequence of
    clears and reads, the buffer is the one a single clear with the colour
    of the last clear of the sequence would give, whatever was cleared or
    read before it, and it is the buffer untouched when the sequence has no
    clear.  In particular a clear erases every trace of an earlier one. *)
Theorem clears_last_wins (b : Buffer) (ops : list BufferOp) :
  fst (apply_ops b ops) =
  match last_clear ops with
  | Some color => ClearImage color b
  | None => b
  end.
Proof.
  revert b. induction ops as [| op rest IH]; intro b; [reflexivity |].
  cbn [apply_ops last_clear].
  specialize (IH (fst (apply_op b op))).
  destruct (apply_op b op) as [b1 o] eqn:E1. cbn [fst] in IH.
  destruct (apply_ops b1 rest) as [b2 os]. cbn [fst] in *.
  rewrite IH. destruct (last_clear rest) as [color |].
  - rewrite <- (ClearImage_after_op color b op), E1. reflexivity.
  - destruct op; cbn [apply_op] in E1; injection E1 as <- _; reflexivity.
Qed.

(** X2.  The constructor rejects nothing: with a width or a height of
    zero it yields a buffer that keeps the dimensions given and has no cell,
    and on such a buffer every clear is without effect. *)
Theorem Buffer_new_no_cells (W H color : Z) :
  W = 0 \/ H = 0 ->
  GetImage (Buffer_new W H) = [] /\
  GetWidth (Buffer_new W H) = W /\
  GetHeight (Buffer_new W H) = H /\
  ClearImage color (Buffer_new W H) = Buffer_new W H.
Proof.
  intro Hzero.
  assert (Hmul : Int.size_mul W H = 0).
  { unfold Int.size_mul, Int.to_size_t. destruct Hzero as [-> | ->];
      [rewrite Z.mul_0_l | rewrite Z.mul_0_r]; reflexivity. }
  assert (Himage : image_ (Buffer_new W H) = []).
  { rewrite Buffer_new_image, Hmul. reflexivity. }
  unfold GetImage, GetWidth, GetHeight.
  split; [exact Himage |]. split; [reflexivity |]. split; [reflexivity |].
  unfold Buffer_new, ClearImage. cbn [width_ height_ image_].
  rewrite Hmul. reflexivity.
Qed.

Lemma Buffer_new_no_cells_witness :
  GetImage (Buffer_new 0 256) = [] /\ ClearImage 7 (Buffer_new 0 256) = Buffer_new 0 256.
Proof.
  destruct (Buffer_new_no_cells 0 256 7 (or_introl eq_refl)) as (Himage & _ & _ & Hclear).
  split; [exact Himage | exact Hclear].
Defined.

Lemma to_int32_small (z : Z) : - 2 ^ 31 <= z < 2 ^ 31 -> Int.to_int32 z = z.
Proof.
  intro H. unfold Int.to_int32. rewrite Z.mod_small by lia. lia.
Qed.

Lemma to_int32_high (z : Z) : 2 ^ 31 <= z < 2 ^ 32 -> Int.to_int32 z = z - 2 ^ 32.
Proof.
  intro H. unfold Int.to_int32.
  rewrite <- (Z.mod_add (z + 2 ^ 31) (-1) (2 ^ 32)) by lia.
  rewrite Z.mod_small by lia. lia.
Qed.

(** X3.  For a buffer whose dimensions fit [GLsizei], the body of the
    loop hands to [glTexSubImage2D] the buffer's own width and height and
    exactly width times height cells, all of the clear colour, and the setup
    hands to [glTexImage2D] the same extent with the cells as the
    constructor left them: the extent announced and the memory passed agree.
    A width from [2 ^ 31] up does not fit: the conversion to [GLsizei]
    passes it as a negative number. *)
Theorem upload_extent (env : Env) (W H window clearColor vao shaderId : Z) :
  0 <= W < 2 ^ 31 -> 0 <= H < 2 ^ 31 ->
  frame window clearColor (Buffer_new W H) =
  ([Buffer_ClearImage clearColor;
    glTexSubImage2D GL_TEXTURE_2D 0 0 0 W H GL_RGBA GL_UNSIGNED_INT_8_8_8_8
                    (repeat clearColor (Z.to_nat (W * H)));
    glDrawArrays GL_TRIANGLES 0 3;
    glfwSwapBuffers window;
    glfwPollEvents],
   Next (ClearImage clearColor (Buffer_new W H))) /\
  In (glTexImage2D GL_TEXTURE_2D 0 GL_RGB8 W H 0 GL_RGBA GL_UNSIGNED_INT_8_8_8_8
                   (repeat 0 (Z.to_nat (W * H))))
     (trace (setup_texture env (Buffer_new W H) vao shaderId)) /\
  (forall W' : Z, 2 ^ 31 <= W' < 2 ^ 32 ->
     Int.to_int32 (GetWidth (Buffer_new W' H)) = W' - 2 ^ 32 /\
     Int.to_int32 (GetWidth (Buffer_new W' H)) < 0).
Proof.
  intros HW HH.
  assert (Hmul : Int.size_mul W H = W * H) by (apply size_mul_exact; unfold Int.size_max, Int.size_bits; nia).
  split; [| split].
  - rewrite frame_calls. unfold iteration_calls. cbn [tl].
    rewrite Buffer_new_image, repeat_length, Hmul.
    change (width_ (Buffer_new W H)) with W. change (height_ (Buffer_new W H)) with H.
    rewrite !to_int32_small by lia. reflexivity.
  - unfold trace, setup_texture. rewrite !bind_call. cbn [fst].
    right. right. right. left.
    unfold GetWidth, GetHeight, GetImage.
    rewrite Buffer_new_image, Hmul.
    change (width_ (Buffer_new W H)) with W. change (height_ (Buffer_new W H)) with H.
    rewrite !to_int32_small by lia. reflexivity.
  - intros W' HW'. change (GetWidth (Buffer_new W' H)) with W'.
    rewrite to_int32_high by exact HW'. lia.
Qed.

Lemma upload_extent_witness :
  In (glTexImage2D GL_TEXTURE_2D 0 GL_RGB8 2 3 0 GL_RGBA GL_UNSIGNED_INT_8_8_8_8
                   (repeat 0 (Z.to_nat (2 * 3))))
     (trace (setup_texture (working_env 0) (Buffer_new 2 3) 1 1)).
Proof.
  assert (H2 : 0 <= 2 < 2 ^ 31) by lia.
  assert (H3 : 0 <= 3 < 2 ^ 31) by lia.
  destruct (upload_extent (working_env 0) 2 3 7 5 1 1 H2 H3) as (_ & Hsetup & _).
  exact Hsetup.
Defined.

(** ** The packed colour as an [int] *)

(** X4.  The expression of [RGBToUint32] is computed on [int]: for a red
    channel below 128 its value is the packed colour itself, and for a red
    channel from 128 up it is negative, the packed colour less [2 ^ 32]; the
    conversion to [uint32_t] on return makes up the difference. *)
Theorem RGB_int_sign (r g b : Z) :
  Int.is_uint8 r -> Int.is_uint8 g -> Int.is_uint8 b ->
  RGBToUint32 r g b = Int.to_uint32 (RGB_int r g b) /\
  (r < 128 -> RGB_int r g b = RGBToUint32 r g b /\ 0 < RGB_int r g b) /\
  (128 <= r -> RGB_int r g b = RGBToUint32 r g b - 2 ^ 32 /\ RGB_int r g b < 0).
Proof.
  unfold Int.is_uint8. intros Hr Hg Hb.
  assert (Hv := RGBToUint32_value r g b Hr Hg Hb).
  split; [reflexivity |].
  assert (Hlow : forall hi : Z,
            Z.lor (Z.lor (Z.lor (hi * 2 ^ 24) (g * 2 ^ 16)) (b * 2 ^ 8)) 255
            = hi * 2 ^ 24 + g * 2 ^ 16 + b * 2 ^ 8 + 255).
  { intro hi.
    rewrite (lor_high_low hi (g * 2 ^ 16) 24) by lia.
    replace (hi * 2 ^ 24 + g * 2 ^ 16) with ((hi * 2 ^ 8 + g) * 2 ^ 16) by ring.
    rewrite (lor_high_low (hi * 2 ^ 8 + g) (b * 2 ^ 8) 16) by lia.
    replace ((hi * 2 ^ 8 + g) * 2 ^ 16 + b * 2 ^ 8)
      with ((hi * 2 ^ 16 + g * 2 ^ 8 + b) * 2 ^ 8) by ring.
    rewrite (lor_high_low _ 255 8) by lia. ring. }
  unfold RGB_int, Int.int_shl. rewrite !Z.shiftl_mul_pow2 by lia.
  rewrite (to_int32_small (g * 2 ^ 16)), (to_int32_small (b * 2 ^ 8)) by lia.
  split; intro Hred.
  - rewrite (to_int32_small (r * 2 ^ 24)) by lia. rewrite Hlow, Hv. lia.
  - rewrite (to_int32_high (r * 2 ^ 24)) by lia.
    replace (r * 2 ^ 24 - 2 ^ 32) with ((r - 256) * 2 ^ 24) by ring.
    rewrite Hlow, Hv. lia.
Qed.

Lemma RGB_int_sign_witness :
  RGB_int 255 0 0 = RGBToUint32 255 0 0 - 2 ^ 32 /\ RGB_int 255 0 0 < 0.
Proof.
  assert (H0 : Int.is_uint8 0) by (unfold Int.is_uint8; lia).
  assert (H255 : Int.is_uint8 255) by (unfold Int.is_uint8; lia).
  destruct (RGB_int_sign 255 0 0 H255 H0 H0) as (_ & _ & Hhigh).
  apply Hhigh. lia.
Defined.

(** ** The diagnostic helpers on their own *)

Lemma substring_prefix (n : nat) : forall s : string,
  prefix (substring 0 n s) s = true.
Proof.
  induction n as [| n IH]; intros [| c s]; cbn [substring prefix]; try reflexivity.
  destruct (ascii_dec c c) as [_ | Hne]; [apply IH | now elim Hne].
Qed.

Lemma substring_length_le (n : nat) : forall s : string,
  (String.length (substring 0 n s) <= n)%nat.
Proof.
  induction n as [| n IH]; intros [| c s]; cbn [substring String.length]; try lia.
  specialize (IH s). lia.
Qed.

Lemma substring_whole (n : nat) : forall s : string,
  (String.length s <= n)%nat -> substring 0 n s = s.
Proof.
  induction n as [| n IH]; intros [| c s] Hlen; cbn [substring String.length] in *;
    try reflexivity; try lia.
  rewrite IH by lia. reflexivity.
Qed.

(** What [glGetShaderInfoLog] and [glGetProgramInfoLog] leave in the
    buffer of [BUFFER_SIZE] characters [ValidateShader] and
    [ValidateProgram] give them. *)
Lemma read_info_log_text (infoLog : string) :
  let text := snd (read_info_log BUFFER_SIZE infoLog) in
  fst (read_info_log BUFFER_SIZE infoLog) = Z.of_nat (String.length text) /\
  prefix text infoLog = true /\
  (String.length text <= 511)%nat /\
  ((String.length infoLog <= 511)%nat -> text = infoLog).
Proof.
  unfold read_info_log. cbn [fst snd].
  change (Z.to_nat (BUFFER_SIZE - 1)) with 511%nat.
  split; [reflexivity |].
  split; [apply substring_prefix |].
  split; [apply substring_length_le | apply substring_whole].
Qed.

(** [ValidateShader] called with a text as [file]: it never stops the
    run; on an empty info log it makes the one call that reads the log and
    writes nothing; on any other log it writes one line, with a text that
    begins the log and has at most 511 characters. *)
Lemma ValidateShader_writes (shader : Z) (file infoLog : string) :
  snd (ValidateShader shader file infoLog) = Next tt /\
  (infoLog = EmptyString ->
     trace (ValidateShader shader file infoLog)
     = [glGetShaderInfoLog shader BUFFER_SIZE 0 EmptyString]) /\
  (infoLog <> EmptyString ->
     exists text : string,
       trace (ValidateShader shader file infoLog)
       = [glGetShaderInfoLog shader BUFFER_SIZE (Z.of_nat (String.length text)) text;
          cerr ("Shader " ++ dec shader ++ "(" ++ file ++ ") compile error: "
                  ++ text ++ endl)%string] /\
       text <> EmptyString /\
       prefix text infoLog = true /\
       (String.length text <= 511)%nat /\
       ((String.length infoLog <= 511)%nat -> text = infoLog)).
Proof.
  unfold trace. rewrite ValidateShader_calls. cbn [fst snd].
  split; [reflexivity |]. split.
  - intros ->. reflexivity.
  - intro Hlog.
    destruct (read_info_log_text infoLog) as (Hlen & Hpre & Hle & Hwhole).
    exists (snd (read_info_log BUFFER_SIZE infoLog)).
    rewrite (proj2 (read_info_log_length infoLog) Hlog), Hlen.
    split; [reflexivity |].
    split; [apply read_info_log_buffer; exact Hlog |].
    split; [exact Hpre |]. split; [exact Hle | exact Hwhole].
Qed.

(** X6.  [ValidateProgram] never stops the run by itself and hands back
    [true] exactly when the program's info log is empty, in which case it
    writes nothing.  It hands back [false] on any other log, after writing
    exactly one line that carries the program's number and a text that
    begins the log, has at most 511 characters and is the whole log when the
    log is that short: any text in the log, an error or not, counts as a
    failed link. *)
Theorem ValidateProgram_writes (program : Z) (infoLog : string) :
  (infoLog = EmptyString ->
     ValidateProgram program infoLog
     = ([glGetProgramInfoLog program BUFFER_SIZE 0 EmptyString], Next true)) /\
  (infoLog <> EmptyString ->
     exists text : string,
       ValidateProgram program infoLog
       = ([glGetProgramInfoLog program BUFFER_SIZE (Z.of_nat (String.length text)) text;
           cerr ("Program " ++ dec program ++ " link error: " ++ text ++ endl)%string],
          Next false) /\
       text <> EmptyString /\
       prefix text infoLog = true /\
       (String.length text <= 511)%nat /\
       ((String.length infoLog <= 511)%nat -> text = infoLog)).
Proof.
  rewrite ValidateProgram_calls. split.
  - intros ->. reflexivity.
  - intro Hlog.
    destruct (read_info_log_text infoLog) as (Hlen & Hpre & Hle & Hwhole).
    exists (snd (read_info_log BUFFER_SIZE infoLog)).
    rewrite (proj2 (read_info_log_length infoLog) Hlog), Hlen.
    split; [reflexivity |].
    split; [apply read_info_log_buffer; exact Hlog |].
    split; [exact Hpre |]. split; [exact Hle | exact Hwhole].
Qed.

Lemma errorString_line_inj (e e' : GLerror) (rest : string) :
  (errorString e ++ rest)%string = (errorString e' ++ rest)%string -> e = e'.
Proof.
  destruct e, e'; cbn [errorString String.append]; intro H;
    try reflexivity; try discriminate H.
Qed.

Lemma GLDebug_written (file : string) (line : Z) (errors : list GLerror) :
  written (fst (GLDebug file line errors)) =
  map (fun errorNo =>
         (errorString errorNo ++ " - " ++ file ++ " : " ++ dec line ++ endl)%string)
      errors.
Proof.
  rewrite GLDebug_calls. cbn [fst].
  induction errors as [| errorNo rest IH]; [reflexivity |].
  cbn [flat_map app written map]. rewrite IH. reflexivity.
Qed.

(** X7.  [GLDebug] empties the error state and reports it: it queries
    once more than there are pending errors, goes on afterwards, and writes
    one line per pending error, in the order the errors are handed out, each
    with the name of the error, the file and the line given.  When the
    pending errors are all among the five codes [GLDebug] names, the lines
    written tell them: no other pending errors make it write the same
    lines.  Codes outside the five all write [UNKNOWN_ERROR] and are not
    told apart. *)
Theorem GLDebug_reports (file : string) (line : Z) (errors errors' : list GLerror) :
  snd (GLDebug file line errors) = Next tt /\
  length (filter is_error_query (trace (GLDebug file line errors)))
  = S (length errors) /\
  written (trace (GLDebug file line errors))
  = map (fun errorNo =>
           (errorString errorNo ++ " - " ++ file ++ " : " ++ dec line ++ endl)%string)
        errors /\
  (Forall (fun errorNo => errorNo <> GL_OTHER_ERROR) errors ->
   written (trace (GLDebug file line errors))
   = written (trace (GLDebug file line errors')) -> errors = errors') /\
  (In GL_OTHER_ERROR errors ->
   In ("UNKNOWN_ERROR" ++ " - " ++ file ++ " : " ++ dec line ++ endl)%string
      (written (trace (GLDebug file line errors)))).
Proof.
  unfold trace.
  split; [rewrite GLDebug_calls; reflexivity |].
  split.
  { rewrite GLDebug_calls. cbn [fst].
    induction errors as [| errorNo rest IH]; [reflexivity |].
    cbn [flat_map app filter is_error_query length]. rewrite IH. reflexivity. }
  split; [apply GLDebug_written |].
  split.
  { intros _. rewrite !GLDebug_written. revert errors'.
    induction errors as [| e rest IH]; intros [| e' rest'] H; cbn [map] in H;
      try reflexivity; try discriminate H.
    injection H as Hline Hrest.
    apply errorString_line_inj in Hline. subst e'.
    rewrite (IH rest' Hrest). reflexivity. }
  intro Hin. rewrite GLDebug_written.
  apply (in_map (fun errorNo =>
                   (errorString errorNo ++ " - " ++ file ++ " : " ++ dec line
                      ++ endl)%string)) in Hin.
  exact Hin.
Qed.

(** ** Runs of [main]: what needs the context *)

Lemma acquire_context_no_graphics (env : Env) :
  Forall (fun e => needs_context e = false) (fst (acquire_context env)).
Proof. calls_forall. Qed.

(** The calls of [main] begin with those of the context acquisition, and
    are those alone when the acquisition fails. *)
Lemma main_begins (fuel : nat) (env : Env) :
  exists rest : list Event,
    fst (main fuel env) = fst (acquire_context env) ++ rest /\
    ((forall window : Z, snd (acquire_context env) <> Next window) -> rest = []).
Proof.
  unfold main. rewrite bind_eq.
  destruct (snd (acquire_context env)) as [window | code |]; cbn [fst].
  - eexists. split; [reflexivity |]. intro H. now elim (H window).
  - exists []. split; [now rewrite app_nil_r | reflexivity].
  - exists []. split; [now rewrite app_nil_r | reflexivity].
Qed.

(** A call of [front ++ rest] that is not among the kind of [front] lies
    after all of [front]. *)
Lemma split_after {A : Type} (f : A -> bool) (front : list A) :
  forall (rest before : list A) (e : A) (after : list A),
    Forall (fun x => f x = false) front ->
    f e = true ->
    before ++ e :: after = front ++ rest ->
    exists middle : list A, before = front ++ middle /\ middle ++ e :: after = rest.
Proof.
  induction front as [| x front IH]; intros rest before e after Hfront He Heq.
  - exists before. split; [reflexivity | exact Heq].
  - inversion Hfront as [| ? ? Hx Hfront']; subst.
    destruct before as [| y before]; cbn [app] in Heq; injection Heq as Hhead Htail.
    + subst x. congruence.
    + subst y. destruct (IH rest before e after Hfront' He Htail) as (middle & -> & Hm).
      exists middle. split; [reflexivity | exact Hm].
Qed.

(** X8.  No graphics call and no error query is made without a context:
    in every run, whatever the libraries answer, each such call comes after
    a window was created, its context made current and the loader
    initialised with success.  When the windowing library, the window or
    the loader fails, [main] makes no graphics call at all. *)
Theorem graphics_calls_need_context (fuel : nat) (env : Env)
    (before : list Event) (e : Event) (after : list Event) :
  trace (main fuel env) = before ++ e :: after ->
  needs_context e = true ->
  exists window : Z,
    env_glfwInit env = true /\
    env_window env = Some window /\
    env_glewInit env = true /\
    In (glfwCreateWindow 224 256 "Space Invaders" (Some window)) before /\
    In (glfwMakeContextCurrent window) before /\
    In (glewInit true) before.
Proof.
  unfold trace. intros Hcalls He.
  destruct (main_begins fuel env) as (rest & Hbegin & Halone).
  rewrite Hbegin in Hcalls.
  destruct (split_after needs_context _ rest before e after
              (acquire_context_no_graphics env) He (eq_sym Hcalls))
    as (middle & Hbefore & Hrest).
  pose proof (acquire_context_result env) as Hres.
  destruct (env_glfwInit env) eqn:Hinit.
  2:{ rewrite Halone in Hrest; [destruct middle; discriminate Hrest |].
      intros w Hw. rewrite Hw in Hres. discriminate Hres. }
  destruct (env_window env) as [window |] eqn:Hwin.
  2:{ rewrite Halone in Hrest; [destruct middle; discriminate Hrest |].
      intros w Hw. rewrite Hw in Hres. discriminate Hres. }
  destruct (env_glewInit env) eqn:Hglew.
  2:{ rewrite Halone in Hrest; [destruct middle; discriminate Hrest |].
      intros w Hw. rewrite Hw in Hres. discriminate Hres. }
  exists window. repeat (split; [reflexivity |]).
  rewrite Hbefore, (acquire_context_calls env window Hinit Hwin Hglew). cbn [fst].
  repeat split; apply in_or_app; left; cbn [In]; tauto.
Qed.

Lemma graphics_calls_need_context_witness :
  exists before after : list Event,
    trace (main 2 (working_env 1)) = before ++ glDrawArrays GL_TRIANGLES 0 3 :: after /\
    In (glfwMakeContextCurrent 7) before /\
    In (glewInit true) before.
Proof.
  pose proof (main_closes 2 (working_env 1) 7 1 eq_refl eq_refl eq_refl eq_refl
                (sample_env_closes _ _ _ _ _ _ _ 1) (Nat.lt_succ_diag_r 1)) as Hrun.
  set (before := fst (main 0 (working_env 1))
                 ++ firstn 3 (iteration_calls 7 (RGBToUint32 0 128 0) bufferWidth
                                bufferHeight (Z.to_nat (bufferWidth * bufferHeight)))).
  set (after := [glfwSwapBuffers 7; glfwPollEvents; glfwWindowShouldClose 7 true;
                 glfwDestroyWindow 7; glfwTerminate]).
  assert (Hcalls : trace (main 2 (working_env 1))
                   = before ++ glDrawArrays GL_TRIANGLES 0 3 :: after).
  { unfold trace. rewrite Hrun. unfold before, after. cbn [fst].
    rewrite <- app_assoc. reflexivity. }
  destruct (graphics_calls_need_context 2 (working_env 1) before
              (glDrawArrays GL_TRIANGLES 0 3) after Hcalls eq_refl)
    as (window & _ & Hwin & _ & _ & Hcurrent & Hglew).
  injection Hwin as <-.
  exists before, after. split; [exact Hcalls |]. split; [exact Hcurrent | exact Hglew].
Defined.

(** ** Runs of [main]: handles acquired and released *)

Lemma untouched (kind : Handle -> bool) (t : list Event) :
  Forall (fun e => touches kind e = false) t ->
  filter kind (acquired t) = [] /\ filter kind (released t) = [].
Proof.
  unfold acquired, released.
  induction 1 as [| e t He _ [IHa IHr]]; [split; reflexivity |].
  cbn [flat_map]. rewrite !filter_app, IHa, IHr, !app_nil_r.
  unfold touches in He. apply orb_false_elim in He. destruct He as [Ha Hr].
  split.
  - induction (acquires e) as [| h hs IH]; [reflexivity |].
    cbn [existsb] in Ha. apply orb_false_elim in Ha. destruct Ha as [Hh Hhs].
    cbn [filter]. rewrite Hh. apply IH. exact Hhs.
  - induction (releases e) as [| h hs IH]; [reflexivity |].
    cbn [existsb] in Hr. apply orb_false_elim in Hr. destruct Hr as [Hh Hhs].
    cbn [filter]. rewrite Hh. apply IH. exact Hhs.
Qed.

Lemma acquired_app (kind : Handle -> bool) (t1 t2 : list Event) :
  filter kind (acquired (t1 ++ t2)) = filter kind (acquired t1) ++ filter kind (acquired t2).
Proof. unfold acquired. rewrite flat_map_app. apply filter_app. Qed.

Lemma released_app (kind : Handle -> bool) (t1 t2 : list Event) :
  filter kind (released (t1 ++ t2)) = filter kind (released t1) ++ filter kind (released t2).
Proof. unfold released. rewrite flat_map_app. apply filter_app. Qed.

Lemma frame_loop_forall (P : Event -> Prop) (env : Env) (window clearColor : Z) :
  (forall closed : bool, P (glfwWindowShouldClose window closed)) ->
  (forall (width height : Z) (cells : nat),
     Forall P (tl (iteration_calls window clearColor width height cells))) ->
  forall (fuel k : nat) (b : Buffer),
    Forall P (fst (frame_loop fuel env window clearColor k b)).
Proof.
  intros Htest Hbody.
  induction fuel as [| fuel IH]; intros k b; cbn [frame_loop]; [constructor |].
  rewrite bind_call. cbn [fst].
  constructor; [apply Htest |].
  destruct (env_shouldClose env k); [constructor |].
  rewrite bind_eq, frame_calls. cbn [fst snd].
  apply Forall_app. split; [apply Hbody | apply IH].
Qed.

(** The loop never returns by itself: it goes on to the teardown or is
    still turning. *)
Lemma frame_loop_result (env : Env) (window clearColor : Z) :
  forall (fuel k : nat) (b : Buffer) (code : Z),
    snd (frame_loop fuel env window clearColor k b) <> Return code.
Proof.
  induction fuel as [| fuel IH]; intros k b code; cbn [frame_loop]; [discriminate |].
  rewrite bind_call. cbn [snd].
  destruct (env_shouldClose env k); [discriminate |].
  rewrite bind_eq, frame_calls. cbn [fst snd]. apply IH.
Qed.

Lemma frame_loop_untouched (kind : Handle -> bool) (env : Env) (window clearColor : Z)
    (fuel k : nat) (b : Buffer) :
  Forall (fun e => touches kind e = false)
         (fst (frame_loop fuel env window clearColor k b)).
Proof.
  apply frame_loop_forall.
  - intro closed. reflexivity.
  - intros width height cells. unfold iteration_calls. cbn [tl]. calls_forall.
Qed.

Lemma ValidateShader_untouched (kind : Handle -> bool) (shader : Z) (file infoLog : string) :
  Forall (fun e => touches kind e = false) (fst (ValidateShader shader file infoLog)).
Proof. calls_forall. Qed.

Lemma ValidateProgram_untouched (kind : Handle -> bool) (program : Z) (infoLog : string) :
  Forall (fun e => touches kind e = false) (fst (ValidateProgram program infoLog)).
Proof. calls_forall. Qed.

Lemma report_version_untouched_by (kind : Handle -> bool) (env : Env) :
  Forall (fun e => touches kind e = false) (fst (report_version env)).
Proof. calls_forall. Qed.

(** One stage: its shader object is created, and deleted once attached. *)
Lemma build_stage_shader (type : GLconst) (shader : Z) (source infoLog : string)
    (shaderId : Z) :
  let calls := fst (build_stage type shader source infoLog shaderId) in
  filter is_shader_handle (acquired calls) = [H_shader shader] /\
  filter is_shader_handle (released calls) = [H_shader shader] /\
  filter is_library_handle (acquired calls) = [] /\
  filter is_library_handle (released calls) = [].
Proof.
  cbv zeta. rewrite build_stage_calls. cbn [fst].
  destruct (untouched is_shader_handle _
              (ValidateShader_untouched is_shader_handle shader source infoLog))
    as [Hsa Hsr].
  destruct (untouched is_library_handle _
              (ValidateShader_untouched is_library_handle shader source infoLog))
    as [Hla Hlr].
  change (glCreateShader type shader :: glShaderSource shader 1 source
          :: glCompileShader shader
          :: fst (ValidateShader shader source infoLog)
          ++ [glAttachShader shaderId shader; glDeleteShader shader])
    with ([glCreateShader type shader; glShaderSource shader 1 source;
           glCompileShader shader]
          ++ fst (ValidateShader shader source infoLog)
          ++ [glAttachShader shaderId shader; glDeleteShader shader]).
  rewrite !acquired_app, !released_app, Hsa, Hsr, Hla, Hlr.
  repeat split; reflexivity.
Qed.

(** The calls of [build_program] up to the link check: the two shader
    objects, created and deleted; the library untouched. *)
Lemma build_program_handles (env : Env) :
  let calls := fst (build_program env) in
  filter is_shader_handle (acquired calls)
  = [H_shader (env_vertex env); H_shader (env_fragment env)] /\
  filter is_shader_handle (released calls)
  = [H_shader (env_vertex env); H_shader (env_fragment env)] /\
  filter is_library_handle (acquired calls) = [] /\
  filter is_library_handle (released calls)
  = if 0 <? fst (read_info_log BUFFER_SIZE (env_programLog env))
    then [H_library] else [].
Proof.
  cbv zeta. rewrite build_program_calls. cbv zeta.
  destruct (build_stage_shader GL_VERTEX_SHADER (env_vertex env) vertexShader
              (env_vertexLog env) (env_program env)) as (Hva & Hvr & Hvla & Hvlr).
  destruct (build_stage_shader GL_FRAGMENT_SHADER (env_fragment env) fragmentShader
              (env_fragmentLog env) (env_program env)) as (Hfa & Hfr & Hfla & Hflr).
  cbv zeta in Hva, Hvr, Hvla, Hvlr, Hfa, Hfr, Hfla, Hflr.
  destruct (untouched is_shader_handle _
              (ValidateProgram_untouched is_shader_handle (env_program env)
                 (env_programLog env))) as [Hpa Hpr].
  destruct (untouched is_library_handle _
              (ValidateProgram_untouched is_library_handle (env_program env)
                 (env_programLog env))) as [Hpla Hplr].
  assert (Hbuilt :
    forall tail : list Event,
      (glGenVertexArrays 1 (env_vao env)
       :: glCreateProgram (env_program env)
       :: fst (build_stage GL_VERTEX_SHADER (env_vertex env) vertexShader
                           (env_vertexLog env) (env_program env))
       ++ fst (build_stage GL_FRAGMENT_SHADER (env_fragment env) fragmentShader
                           (env_fragmentLog env) (env_program env))
       ++ glLinkProgram (env_program env)
       :: fst (ValidateProgram (env_program env) (env_programLog env))) ++ tail
      = [glGenVertexArrays 1 (env_vao env); glCreateProgram (env_program env)]
        ++ fst (build_stage GL_VERTEX_SHADER (env_vertex env) vertexShader
                            (env_vertexLog env) (env_program env))
        ++ fst (build_stage GL_FRAGMENT_SHADER (env_fragment env) fragmentShader
                            (env_fragmentLog env) (env_program env))
        ++ [glLinkProgram (env_program env)]
        ++ fst (ValidateProgram (env_program env) (env_programLog env))
        ++ tail).
  { intro tail. cbn [app]. rewrite <- !app_assoc. reflexivity. }
  destruct (0 <? fst (read_info_log BUFFER_SIZE (env_programLog env))); cbn [fst].
  - rewrite Hbuilt, !acquired_app, !released_app.
    rewrite Hva, Hvr, Hvla, Hvlr, Hfa, Hfr, Hfla, Hflr, Hpa, Hpr, Hpla, Hplr.
    repeat split; reflexivity.
  - rewrite <- (app_nil_r (_ :: _)), Hbuilt, !acquired_app, !released_app.
    rewrite Hva, Hvr, Hvla, Hvlr, Hfa, Hfr, Hfla, Hflr, Hpa, Hpr, Hpla, Hplr.
    repeat split; reflexivity.
Qed.

Lemma acquire_context_shaders (env : Env) :
  Forall (fun e => touches is_shader_handle e = false) (fst (acquire_context env)).
Proof. calls_forall. Qed.

Lemma setup_texture_shaders (env : Env) (buffer : Buffer) (vao shaderId : Z) :
  Forall (fun e => touches is_shader_handle e = false)
         (fst (setup_texture env buffer vao shaderId)).
Proof. calls_forall. Qed.

Lemma setup_texture_library (env : Env) (buffer : Buffer) (vao shaderId : Z) :
  Forall (fun e => touches is_library_handle e = false)
         (fst (setup_texture env buffer vao shaderId)).
Proof. calls_forall. Qed.

Lemma shown_shaders (env : Env) (window clearColor : Z) (fuel : nat) (b : Buffer) :
  Forall (fun e => touches is_shader_handle e = false)
         (fst (_ <- frame_loop fuel env window clearColor 0 b ;; teardown window)).
Proof.
  rewrite bind_eq.
  pose proof (frame_loop_untouched is_shader_handle env window clearColor fuel 0 b)
    as Hloop.
  destruct (snd (frame_loop fuel env window clearColor 0 b)); cbn [fst]; try exact Hloop.
  apply Forall_app. split; [exact Hloop |].
  unfold teardown. rewrite !bind_call. cbn [fst exit]. calls_forall.
Qed.

(** In every run, whatever the libraries answer and however long it
    lasts, the shader handles named by [glDeleteShader] are the ones handed
    out by [glCreateShader], in the same order: the vertex and the fragment
    stage when the context was acquired, and none otherwise. *)
Lemma shaders_released (fuel : nat) (env : Env) :
  filter is_shader_handle (acquired (trace (main fuel env)))
  = filter is_shader_handle (released (trace (main fuel env))) /\
  (forall window : Z,
     env_glfwInit env = true -> env_window env = Some window -> env_glewInit env = true ->
     filter is_shader_handle (released (trace (main fuel env)))
     = [H_shader (env_vertex env); H_shader (env_fragment env)]) /\
  (snd (acquire_context env) = Return (-1) ->
     filter is_shader_handle (acquired (trace (main fuel env))) = []).
Proof.
  unfold trace.
  destruct (untouched _ _ (acquire_context_shaders env)) as [Hca Hcr].
  destruct (snd (acquire_context env)) as [window | code |] eqn:Hctx.
  - rewrite acquire_context_result in Hctx.
    destruct (env_glfwInit env) eqn:Hinit; [| discriminate].
    destruct (env_window env) as [w |] eqn:Hwin; [| discriminate].
    destruct (env_glewInit env) eqn:Hglew; [| discriminate].
    rewrite (main_with_context fuel env w Hinit Hwin Hglew). cbv zeta.
    generalize (Buffer_new bufferWidth bufferHeight). intro buffer.
    destruct (untouched _ _ (report_version_untouched_by is_shader_handle env))
      as [Hra Hrr].
    destruct (build_program_handles env) as (Hba & Hbr & _). cbv zeta in Hba, Hbr.
    destruct (untouched _ _ (setup_texture_shaders env buffer (env_vao env)
                               (env_program env))) as [Hta Htr].
    destruct (untouched _ _ (shown_shaders env w (RGBToUint32 0 128 0) fuel buffer))
      as [Hsa Hsr].
    destruct (0 <? fst (read_info_log BUFFER_SIZE (env_programLog env))); cbn [fst];
      rewrite !acquired_app, !released_app;
      rewrite ?Hca, ?Hcr, ?Hra, ?Hrr, ?Hba, ?Hbr, ?Hta, ?Htr, ?Hsa, ?Hsr;
      cbn [app]; (split; [reflexivity |]); (split; [| discriminate]);
      intros; reflexivity.
  - rewrite (main_without_context fuel env code Hctx). cbn [fst].
    rewrite Hca, Hcr. split; [reflexivity |]. split; [| reflexivity].
    intros w Hinit Hwin Hglew. rewrite acquire_context_result, Hinit, Hwin, Hglew in Hctx.
    discriminate Hctx.
  - rewrite acquire_context_result in Hctx.
    destruct (env_glfwInit env), (env_window env), (env_glewInit env); discriminate.
Qed.

(** X10.  The windowing library is shut down exactly when it was brought
    up: on every run on which [main] returns, whatever the value returned,
    [glfwTerminate] has been called once if [glfwInit] had succeeded and not
    at all if it had failed. *)
Theorem library_released (fuel : nat) (env : Env) (code : Z) :
  exit_code (main fuel env) = Some code ->
  filter is_library_handle (acquired (trace (main fuel env)))
  = (if env_glfwInit env then [H_library] else []) /\
  filter is_library_handle (released (trace (main fuel env)))
  = (if env_glfwInit env then [H_library] else []).
Proof.
  unfold trace, exit_code. intro Hexit.
  destruct (env_glfwInit env) eqn:Hinit.
  2:{ rewrite (main_without_context fuel env (-1))
        by (rewrite acquire_context_result, Hinit; reflexivity).
      unfold acquire_context. rewrite Hinit. split; reflexivity. }
  destruct (env_window env) as [window |] eqn:Hwin.
  2:{ rewrite (main_without_context fuel env (-1))
        by (rewrite acquire_context_result, Hinit, Hwin; reflexivity).
      unfold acquire_context. rewrite Hinit, Hwin. split; reflexivity. }
  destruct (env_glewInit env) eqn:Hglew.
  2:{ rewrite (main_without_context fuel env (-1))
        by (rewrite acquire_context_result, Hinit, Hwin, Hglew; reflexivity).
      unfold acquire_context. rewrite Hinit, Hwin, Hglew. split; reflexivity. }
  rewrite (main_with_context fuel env window Hinit Hwin Hglew) in *. cbv zeta in *.
  revert Hexit. generalize (Buffer_new bufferWidth bufferHeight). intros buffer Hexit.
  destruct (untouched _ _ (report_version_untouched_by is_library_handle env))
    as [Hra Hrr].
  destruct (build_program_handles env) as (_ & _ & Hba & Hbr). cbv zeta in Hba, Hbr.
  destruct (untouched _ _ (setup_texture_library env buffer (env_vao env)
                             (env_program env))) as [Hta Htr].
  destruct (untouched _ _ (frame_loop_untouched is_library_handle env window
                             (RGBToUint32 0 128 0) fuel 0 buffer)) as [Hla Hlr].
  rewrite (acquire_context_calls env window Hinit Hwin Hglew). cbn [fst].
  destruct (0 <? fst (read_info_log BUFFER_SIZE (env_programLog env))); cbn [fst].
  - rewrite !acquired_app, !released_app, Hra, Hrr, Hba, Hbr. split; reflexivity.
  - rewrite bind_eq in Hexit |- *. cbn [snd] in Hexit.
    destruct (snd (frame_loop fuel env window (RGBToUint32 0 128 0) 0 buffer))
      as [b' | c |] eqn:Hloop; cbn [fst snd] in Hexit |- *; try discriminate Hexit.
    + rewrite !acquired_app, !released_app, Hra, Hrr, Hba, Hbr, Hta, Htr, Hla, Hlr.
      split; reflexivity.
    + elim (frame_loop_result env window (RGBToUint32 0 128 0) fuel 0 buffer c Hloop).
Qed.

Lemma library_released_witness :
  filter is_library_handle
         (released (trace (main 1 (sample_env true (Some 7) false [] "" "" "" 0))))
  = [H_library].
Proof.
  destruct (library_released 1 (sample_env true (Some 7) false [] "" "" "" 0) (-1) eq_refl)
    as [_ Hreleased].
  exact Hreleased.
Defined.

(** ** Runs of [main]: what decides the outcome *)

Lemma same_decisions_fatal (env env' : Env) :
  same_decisions env env' -> fatal env -> fatal env'.
Proof.
  unfold fatal, link_fails. intros (Hinit & Hwin & Hglew & Hlog & _).
  rewrite <- Hinit, <- Hglew.
  intros [H | [[H1 H2] | [(H1 & H2 & H3) | (H1 & H2 & H3 & H4)]]].
  - left. exact H.
  - right; left. split; [exact H1 | apply Hwin; exact H2].
  - right; right; left. repeat split; try assumption.
    intro H. apply H2. apply Hwin. exact H.
  - right; right; right. repeat split; try assumption.
    + intro H. apply H2. apply Hwin. exact H.
    + intro H. apply H4. apply Hlog. exact H.
Qed.

Lemma same_decisions_sym (env env' : Env) :
  same_decisions env env' -> same_decisions env' env.
Proof.
  intros (Hinit & Hwin & Hglew & Hlog & Hclose).
  repeat split; try (symmetry; assumption); try apply Hwin; try apply Hlog.
  intro k. symmetry. apply Hclose.
Qed.

(** X11.  What is only reported decides nothing: two runs in which
    [glfwInit], the creation of the window, [glewInit], the emptiness of the
    program's info log and the answers of [glfwWindowShouldClose] are the
    same end the same way, with the same value returned or both still in the
    loop, whatever the pending errors, the info logs of the two stages, the
    version numbers, the strings and the handles handed out. *)
Theorem reports_decide_nothing (fuel : nat) (env env' : Env) :
  same_decisions env env' ->
  snd (main fuel env) = snd (main fuel env').
Proof.
  intro Hsame.
  pose proof (same_decisions_fatal env env' Hsame) as Hf.
  pose proof (same_decisions_fatal env' env (same_decisions_sym _ _ Hsame)) as Hf'.
  destruct Hsame as (_ & _ & _ & _ & Hclose).
  destruct (main_result fuel env)
    as [[Hfatal Hr] | [Hnf [(n & Hn & Hc & Hr) | [Hopen Hr]]]];
    destruct (main_result fuel env')
      as [[Hfatal' Hr'] | [Hnf' [(n' & Hn' & Hc' & Hr') | [Hopen' Hr']]]];
    rewrite Hr, Hr'; try reflexivity;
    try (elim Hnf; apply Hf'; assumption);
    try (elim Hnf'; apply Hf; assumption).
  - exfalso. apply (closes_at_open env fuel n Hc Hn).
    intros i Hi. rewrite Hclose. apply Hopen'. exact Hi.
  - exfalso. apply (closes_at_open env' fuel n' Hc' Hn').
    intros i Hi. rewrite <- Hclose. apply Hopen. exact Hi.
Qed.

Lemma reports_decide_nothing_witness :
  snd (main 3 (sample_env true (Some 7) true [GL_OUT_OF_MEMORY; GL_INVALID_VALUE]
                          "0:1(1): warning: unused" "0:2(4): error: syntax" "" 2))
  = snd (main 3 (working_env 2)).
Proof.
  apply reports_decide_nothing.
  unfold same_decisions, working_env, sample_env.
  cbn [env_glfwInit env_window env_glewInit env_programLog env_shouldClose].
  repeat split; intro H; try exact H; discriminate H.
Defined.

(** ** The lines of [ErrorCallback] *)

Lemma string_of_uint_digits (d : Decimal.uint) :
  free_of ")" (NilEmpty.string_of_uint d).
Proof.
  induction d; cbn [NilEmpty.string_of_uint free_of]; try exact I;
    (split; [discriminate | assumption]).
Qed.

Lemma dec_free_of_paren (z : Z) : free_of ")" (dec z).
Proof.
  unfold dec, NilZero.string_of_int, NilZero.string_of_uint.
  destruct (Z.to_int z) as [d | d]; destruct d;
    cbn [free_of]; repeat split; try discriminate;
    try apply string_of_uint_digits;
    try apply (string_of_uint_digits (Decimal.D0 d));
    cbn [NilEmpty.string_of_uint free_of]; repeat split; try discriminate;
    apply string_of_uint_digits.
Qed.

Lemma dec_inj (z z' : Z) : dec z = dec z' -> z = z'.
Proof.
  unfold dec. intro H.
  assert (Hnonnil : forall x : Z,
            Z.to_int x <> Decimal.Pos Decimal.Nil /\
            Z.to_int x <> Decimal.Neg Decimal.Nil).
  { intros [| p | p]; cbn [Z.to_int]; split; try discriminate;
      intro Hp; injection Hp as Hp; exact (Unsigned.to_uint_nonnil p Hp). }
  pose proof (NilZero.isi (Z.to_int z) (proj1 (Hnonnil z)) (proj2 (Hnonnil z))) as Hz.
  pose proof (NilZero.isi (Z.to_int z') (proj1 (Hnonnil z')) (proj2 (Hnonnil z'))) as Hz'.
  rewrite H, Hz' in Hz. injection Hz as Hz.
  rewrite <- (DecimalZ.of_to z), <- (DecimalZ.of_to z'), Hz. reflexivity.
Qed.

(** Two texts cut at a first occurrence of [c] are cut at the same
    place. *)
Lemma split_at_first (c : ascii) (s : string) : forall (s' x x' : string),
  free_of c s -> free_of c s' ->
  (s ++ String c x)%string = (s' ++ String c x')%string ->
  s = s' /\ x = x'.
Proof.
  induction s as [| a s IH]; intros [| a' s'] x x' Hs Hs' Heq;
    cbn [String.append free_of] in *.
  - injection Heq as <-. split; reflexivity.
  - injection Heq as Hc _. destruct Hs' as [Hne _]. now elim Hne.
  - injection Heq as Hc _. destruct Hs as [Hne _]. now elim Hne.
  - injection Heq as <- Heq. destruct Hs as [_ Hs]. destruct Hs' as [_ Hs'].
    destruct (IH s' x x' Hs Hs' Heq) as [<- <-]. split; reflexivity.
Qed.

Lemma append_length (s t : string) :
  String.length (s ++ t) = (String.length s + String.length t)%nat.
Proof.
  induction s as [| a s IH]; cbn [String.append String.length];
    [reflexivity | now rewrite IH].
Qed.

Lemma append_cancel_r (t : string) : forall s s' : string,
  (s ++ t)%string = (s' ++ t)%string -> s = s'.
Proof.
  induction s as [| a s IH]; intros [| a' s'] H.
  - reflexivity.
  - apply (f_equal String.length) in H. rewrite !append_length in H.
    cbn [String.length] in H. lia.
  - apply (f_equal String.length) in H. rewrite !append_length in H.
    cbn [String.length] in H. lia.
  - cbn [String.append] in H. injection H as <- H. rewrite (IH s' H). reflexivity.
Qed.

(** X13.  The line [ErrorCallback] writes tells the error apart: two
    calls that write the same line were given the same error code and the
    same description, whatever the description contains. *)
Theorem ErrorCallback_tells (error error' : Z) (description description' : string) :
  ErrorCallback error description = ErrorCallback error' description' ->
  error = error' /\ description = description'.
Proof.
  unfold ErrorCallback. intro H. injection H as H.
  cbn [String.append] in H.
  apply split_at_first in H; try apply dec_free_of_paren.
  destruct H as [Hcode Hrest]. injection Hrest as Hrest.
  split; [apply dec_inj; exact Hcode | apply (append_cancel_r endl); exact Hrest].
Qed.

Lemma ErrorCallback_tells_witness :
  65543 = 65543 /\ "Requested version unavailable"%string
                   = "Requested version unavailable"%string.
Proof.
  apply (ErrorCallback_tells 65543 65543 "Requested version unavailable"
                             "Requested version unavailable" eq_refl).
Defined.

(** ** Shader diagnostics and the failed link *)

Lemma built_untouched (env : Env) :
  Forall (fun e => touches is_context_handle e = false)
         (glGenVertexArrays 1 (env_vao env)
          :: glCreateProgram (env_program env)
          :: fst (build_stage GL_VERTEX_SHADER (env_vertex env) vertexShader
                              (env_vertexLog env) (env_program env))
          ++ fst (build_stage GL_FRAGMENT_SHADER (env_fragment env) fragmentShader
                              (env_fragmentLog env) (env_program env))
          ++ glLinkProgram (env_program env)
          :: fst (ValidateProgram (env_program env) (env_programLog env))).
Proof. calls_forall. Qed.

(** After a failed link check, of the library and the window only the
    library is released. *)
Lemma build_program_failed (env : Env) :
  env_programLog env <> EmptyString ->
  filter is_context_handle (acquired (fst (build_program env))) = [] /\
  filter is_context_handle (released (fst (build_program env))) = [H_library].
Proof.
  intro Hlog. rewrite build_program_calls. cbv zeta.
  rewrite (link_check_fails env Hlog). cbn [fst].
  destruct (untouched is_context_handle _ (built_untouched env)) as [Ha Hr].
  rewrite acquired_app, released_app, Ha, Hr. split; reflexivity.
Qed.

(** C5, as the code has it.  With the context acquired: a stage whose
    compilation left a diagnostic has that diagnostic, not empty, written
    to the error stream, and whatever the two stages left the program is
    still linked (the run goes on).  The run goes on past the link, to
    [glUseProgram], exactly when [ValidateProgram] hands back [true], which
    it does exactly when the info log of the program is empty: any text in
    that log counts as a failed link.  On a failed check [main] writes the
    error, calls [glfwTerminate] and returns -1; of the library and the
    window, both acquired, the library alone is released by a call, and the
    program object, acquired too, is released by none. *)
Theorem shader_diagnostics (fuel : nat) (env : Env) (window : Z) :
  env_glfwInit env = true -> env_window env = Some window -> env_glewInit env = true ->
  let calls := trace (main fuel env) in
  let linked := snd (ValidateProgram (env_program env) (env_programLog env)) in
  (env_vertexLog env <> EmptyString ->
     snd (read_info_log BUFFER_SIZE (env_vertexLog env)) <> EmptyString /\
     In (cerr ("Shader " ++ dec (env_vertex env) ++ "(" ++ vertexShader
                 ++ ") compile error: "
                 ++ snd (read_info_log BUFFER_SIZE (env_vertexLog env)) ++ endl)%string)
        calls) /\
  (env_fragmentLog env <> EmptyString ->
     snd (read_info_log BUFFER_SIZE (env_fragmentLog env)) <> EmptyString /\
     In (cerr ("Shader " ++ dec (env_fragment env) ++ "(" ++ fragmentShader
                 ++ ") compile error: "
                 ++ snd (read_info_log BUFFER_SIZE (env_fragmentLog env)) ++ endl)%string)
        calls) /\
  In (glLinkProgram (env_program env)) calls /\
  (linked = Next true <-> env_programLog env = EmptyString) /\
  (linked = Next false <-> env_programLog env <> EmptyString) /\
  (In (glUseProgram (env_program env)) calls <-> linked = Next true) /\
  (linked <> Next true ->
     exit_code (main fuel env) = Some (-1) /\
     In (cerr ("Error while validating program" ++ endl)%string) calls /\
     In glfwTerminate calls /\
     filter is_context_handle (acquired calls) = [H_library; H_window window] /\
     filter is_context_handle (released calls) = [H_library] /\
     In (H_program (env_program env)) (acquired calls) /\
     ~ In (H_program (env_program env)) (released calls)).
Proof.
  intros Hinit Hwin Hglew calls linked.
  pose proof (stage_and_link_calls fuel env window Hinit Hwin Hglew) as Hcalls.
  cbv zeta in Hcalls.
  destruct Hcalls as (Hvertex & Hfragment & Hlink & Hlinked & Huse & Hfailed).
  unfold calls, linked.
  split; [exact Hvertex |]. split; [exact Hfragment |]. split; [exact Hlink |].
  split; [exact Hlinked |].
  split.
  { rewrite ValidateProgram_calls.
    destruct (0 <? fst (read_info_log BUFFER_SIZE (env_programLog env))) eqn:E;
      cbn [snd].
    - apply read_info_log_length in E. split; [intros _; exact E | reflexivity].
    - split; [discriminate |]. intro Hlog.
      rewrite (link_check_fails env Hlog) in E. discriminate E. }
  split; [exact Huse |].
  intro Hnot. destruct (Hfailed Hnot) as (Hexit & before & Hlast).
  assert (Hlog : env_programLog env <> EmptyString).
  { intro Hlog. apply Hnot. apply Hlinked. exact Hlog. }
  split; [exact Hexit |].
  split; [rewrite Hlast; apply in_or_app; right; left; reflexivity |].
  split; [rewrite Hlast; apply in_or_app; right; right; left; reflexivity |].
  unfold trace.
  rewrite (main_with_context fuel env window Hinit Hwin Hglew). cbv zeta.
  rewrite (link_check_fails env Hlog). cbn [fst].
  destruct (untouched _ _ (report_version_untouched_by is_context_handle env))
    as [Hra Hrr].
  destruct (build_program_failed env Hlog) as [Hba Hbr].
  split.
  { rewrite !acquired_app, Hra, Hba.
    rewrite (acquire_context_calls env window Hinit Hwin Hglew). reflexivity. }
  split.
  { rewrite !released_app, Hrr, Hbr.
    rewrite (acquire_context_calls env window Hinit Hwin Hglew). reflexivity. }
  split.
  { unfold acquired. rewrite !flat_map_app.
    apply in_or_app. right. apply in_or_app. right.
    apply in_flat_map. exists (glCreateProgram (env_program env)).
    split; [| left; reflexivity].
    rewrite build_program_calls. cbv zeta.
    rewrite (link_check_fails env Hlog). cbn [fst].
    apply in_or_app. left. right. left. reflexivity. }
  intro Hin. exact (released_handles _ _ Hin).
Qed.

Lemma shader_diagnostics_witness :
  let env := sample_env true (Some 7) true [] "0:4(1): error: syntax error" ""
                        "error: vertex shader lacks main" 0 in
  In (glLinkProgram 1) (trace (main 1 env)) /\
  exit_code (main 1 env) = Some (-1) /\
  filter is_context_handle (released (trace (main 1 env))) = [H_library].
Proof.
  intro env.
  pose proof (shader_diagnostics 1 env 7 eq_refl eq_refl eq_refl) as H.
  cbv zeta in H. destruct H as (_ & _ & Hlink & Hlinked & _ & _ & Hfatal).
  split; [exact Hlink |].
  assert (Hnot : snd (ValidateProgram (env_program env) (env_programLog env))
                 <> Next true).
  { intro H. apply Hlinked in H. discriminate H. }
  destruct (Hfatal Hnot) as (Hexit & _ & _ & _ & Hreleased & _).
  split; [exact Hexit | exact Hreleased].
Defined.

(** C5 as stated fails on the last two points.  In a run whose link
    check fails, the program object handed out by [glCreateProgram] is
    among the handles acquired and no call releases it before [main]
    returns.  And a program whose info log holds nothing but a warning is
    treated as not linked: [main] returns -1, whatever the link itself
    reported. *)
Lemma failed_link_keeps_handles :
  ~ every_handle_released
      (trace (main 1 (sample_env true (Some 7) true [] "" ""
                                 "error: vertex shader lacks main" 0))) /\
  exit_code (main 1 (sample_env true (Some 7) true [] "" ""
                                "warning: varying TexCoord is never read" 0))
  = Some (-1).
Proof.
  split; [| reflexivity].
  intro H. specialize (H (H_program 1)).
  assert (Hacquired :
    In (H_program 1)
       (acquired (trace (main 1 (sample_env true (Some 7) true [] "" ""
                                            "error: vertex shader lacks main" 0))))).
  { unfold acquired. apply in_flat_map. exists (glCreateProgram 1).
    split; [| left; reflexivity].
    apply (build_calls_in_main 1
             (sample_env true (Some 7) true [] "" "" "error: vertex shader lacks main" 0)
             7 (glCreateProgram 1) eq_refl eq_refl eq_refl).
    rewrite build_program_calls. cbv zeta.
    rewrite link_check_fails by discriminate. cbn [fst].
    apply in_or_app. left. right. left. reflexivity. }
  exact (released_handles _ _ (H Hacquired)).
Qed.

(** ** The shader stages of [main] *)

(** X5.  Each shader stage of [main] goes through whatever the compiler
    says: the shader is created, given its source, compiled, its info log
    read by [ValidateShader] with the source as [file], and then attached
    and deleted, and the run goes on.  On an empty info log nothing is
    written.  On any other log exactly one line is written between the
    compilation and the attachment; it carries the shader's number, the
    source and a text that begins the log, is not empty, has at most 511
    characters (it fits the buffer of 512 with its terminator) and is the
    whole log when the log is that short. *)
Theorem stage_diagnostic (type : GLconst) (shader : Z) (source infoLog : string)
    (shaderId : Z) :
  snd (build_stage type shader source infoLog shaderId) = Next tt /\
  (infoLog = EmptyString ->
     trace (build_stage type shader source infoLog shaderId)
     = [glCreateShader type shader;
        glShaderSource shader 1 source;
        glCompileShader shader;
        glGetShaderInfoLog shader BUFFER_SIZE 0 EmptyString;
        glAttachShader shaderId shader;
        glDeleteShader shader]) /\
  (infoLog <> EmptyString ->
     exists text : string,
       trace (build_stage type shader source infoLog shaderId)
       = [glCreateShader type shader;
          glShaderSource shader 1 source;
          glCompileShader shader;
          glGetShaderInfoLog shader BUFFER_SIZE (Z.of_nat (String.length text)) text;
          cerr ("Shader " ++ dec shader ++ "(" ++ source ++ ") compile error: "
                  ++ text ++ endl)%string;
          glAttachShader shaderId shader;
          glDeleteShader shader] /\
       text <> EmptyString /\
       prefix text infoLog = true /\
       (String.length text <= 511)%nat /\
       ((String.length infoLog <= 511)%nat -> text = infoLog)).
Proof.
  destruct (ValidateShader_writes shader source infoLog) as (_ & Hempty & Hfull).
  unfold trace in *. rewrite build_stage_calls. cbn [fst snd].
  split; [reflexivity |]. split.
  - intro Hlog. rewrite (Hempty Hlog). reflexivity.
  - intro Hlog. destruct (Hfull Hlog) as (text & Hcalls & Hrest).
    exists text. split; [rewrite Hcalls; reflexivity | exact Hrest].
Qed.

Lemma shaders_created_acquired (t : list Event) :
  map H_shader (shaders_created t) = filter is_shader_handle (acquired t).
Proof.
  unfold acquired. induction t as [| e t IH]; [reflexivity |].
  cbn [flat_map]. rewrite filter_app, <- IH.
  destruct e; cbn [shaders_created acquires filter is_shader_handle app map];
    repeat match goal with
           | |- context [match ?x with _ => _ end] => destruct x
           end; reflexivity.
Qed.

Lemma shaders_deleted_released (t : list Event) :
  map H_shader (shaders_deleted t) = filter is_shader_handle (released t).
Proof.
  unfold released. induction t as [| e t IH]; [reflexivity |].
  cbn [flat_map]. rewrite filter_app, <- IH.
  destruct e; reflexivity.
Qed.

Lemma map_H_shader_inj (l l' : list Z) :
  map H_shader l = map H_shader l' -> l = l'.
Proof.
  revert l'. induction l as [| x l IH]; intros [| x' l'] H;
    try reflexivity; try discriminate H.
  cbn [map] in H. injection H as <- H. rewrite (IH l' H). reflexivity.
Qed.

(** X9.  [main] hands every shader it creates to [glDeleteShader], once,
    while the shader is attached and before the program is linked.  In
    every run, whatever the libraries answer and however long it lasts, the
    shader names passed to [glDeleteShader] are exactly the names handed out
    by [glCreateShader], in the same order: none when the context is not
    acquired, the vertex and the fragment stage otherwise.  Each of the two
    is deleted by the call that follows its attachment, and both deletions
    come before [glLinkProgram]. *)
Theorem shaders_deleted_attached (fuel : nat) (env : Env) :
  shaders_deleted (trace (main fuel env)) = shaders_created (trace (main fuel env)) /\
  (forall window : Z,
     env_glfwInit env = true -> env_window env = Some window -> env_glewInit env = true ->
     shaders_created (trace (main fuel env)) = [env_vertex env; env_fragment env] /\
     exists before between after : list Event,
       trace (main fuel env)
       = before
         ++ [glAttachShader (env_program env) (env_vertex env);
             glDeleteShader (env_vertex env)]
         ++ between
         ++ [glAttachShader (env_program env) (env_fragment env);
             glDeleteShader (env_fragment env);
             glLinkProgram (env_program env)]
         ++ after) /\
  (snd (acquire_context env) = Return (-1) ->
     shaders_created (trace (main fuel env)) = []).
Proof.
  destruct (shaders_released fuel env) as (Hsame & Hboth & Hnone).
  rewrite <- !shaders_created_acquired in *. rewrite <- !shaders_deleted_released in *.
  split; [symmetry; apply map_H_shader_inj; exact Hsame |].
  split.
  - intros window Hinit Hwin Hglew. split.
    + apply map_H_shader_inj. rewrite Hsame.
      exact (Hboth window Hinit Hwin Hglew).
    + unfold trace.
      rewrite (main_with_context fuel env window Hinit Hwin Hglew). cbv zeta.
      generalize (Buffer_new bufferWidth bufferHeight). intro buffer.
      rewrite build_program_calls. cbv zeta.
      rewrite !build_stage_calls. cbn [fst].
      exists (fst (acquire_context env) ++ fst (report_version env)
              ++ [glGenVertexArrays 1 (env_vao env);
                  glCreateProgram (env_program env);
                  glCreateShader GL_VERTEX_SHADER (env_vertex env);
                  glShaderSource (env_vertex env) 1 vertexShader;
                  glCompileShader (env_vertex env)]
              ++ fst (ValidateShader (env_vertex env) vertexShader (env_vertexLog env))).
      exists ([glCreateShader GL_FRAGMENT_SHADER (env_fragment env);
               glShaderSource (env_fragment env) 1 fragmentShader;
               glCompileShader (env_fragment env)]
              ++ fst (ValidateShader (env_fragment env) fragmentShader
                                     (env_fragmentLog env))).
      destruct (0 <? fst (read_info_log BUFFER_SIZE (env_programLog env)));
        cbn [fst]; eexists; flatten_calls; reflexivity.
  - intro Hctx. apply map_H_shader_inj. exact (Hnone Hctx).
Qed.
